(** * soopervisor.commons.docker: the image build pipeline

    A shallow embedding of [src/soopervisor/commons/docker.py] and the
    properties of its build pipeline.

    The module drives three collaborators that live outside the file: the
    Commander object [e] (cp, rm, cd, info, run), the helpers of
    [soopervisor.commons.source] and [soopervisor.commons.dependencies],
    and the file system queried through [pathlib.Path].  Every call that
    leaves the module is recorded, in order, in a trace of [Call]s; what a
    query answers and whether a call succeeds is read from a [World], as a
    function of the trace issued so far. *)

From Stdlib Require Import String Ascii List Bool Arith Lia.
Import ListNotations.
Local Open Scope string_scope.
Local Open Scope list_scope.

(** ** Python values used by the module *)

Module Py.

(** A [dict] keeps insertion order, which is the order [items()] iterates
    in; keys are strings throughout the module. *)
Definition dict (V : Type) : Type := list (string * V).

Definition keys {V} (d : dict V) : list string := map fst d.
Definition values {V} (d : dict V) : list V := map snd d.
Definition items {V} (d : dict V) : list (string * V) := d.

Fixpoint get {V} (d : dict V) (k : string) : option V :=
  match d with
  | [] => None
  | (k', v) :: d' => if String.eqb k' k then Some v else get d' k
  end.

(** [d[k] = v]: an existing key keeps its position, a new one goes last. *)
Fixpoint set {V} (d : dict V) (k : string) (v : V) : dict V :=
  match d with
  | [] => [(k, v)]
  | (k', v') :: d' =>
      if String.eqb k' k then (k', v) :: d' else (k', v') :: set d' k v
  end.

(** [sub in s] on strings. *)
Fixpoint str_in (sub s : string) : bool :=
  String.prefix sub s ||
  match s with
  | EmptyString => false
  | String _ s' => str_in sub s'
  end.

(** [s.replace(old, new)] for a one-character [old]: every occurrence of
    the character is replaced, left to right. *)
Fixpoint replace (old : ascii) (new s : string) : string :=
  match s with
  | EmptyString => EmptyString
  | String c s' =>
      if Ascii.eqb c old then (new ++ replace old new s')%string
      else String c (replace old new s')
  end.

(** [repr(s)] of a string that holds no quote, backslash or control
    character: the string between single quotes. *)
Definition repr (s : string) : string := ("'" ++ s ++ "'")%string.

(** Truth value of [None], of a string and of a list. *)
Definition truthy_str (o : option string) : bool :=
  match o with
  | Some s => negb (String.eqb s EmptyString)
  | None => false
  end.

Definition truthy_list {A} (o : option (list A)) : bool :=
  match o with
  | Some (_ :: _) => true
  | _ => false
  end.

(** [x == 'literal'] where [x] is [None] or a string. *)
Definition eq_str (o : option string) (lit : string) : bool :=
  match o with
  | Some s => String.eqb s lit
  | None => false
  end.

(** [Path(a, b)] of two relative segments, as the string it prints to. *)
Definition Path2 (a b : string) : string := (a ++ "/" ++ b)%string.
Definition Path3 (a b c : string) : string := Path2 (Path2 a b) c.

(** An f-string, as the concatenation of its pieces. *)
Definition fstr (pieces : list string) : string :=
  fold_right String.append EmptyString pieces.

Definition dquote : string := String "034"%char EmptyString.
Definition newline : string := String "010"%char EmptyString.

End Py.

Import Py.

(** ** Calls that leave the module *)

Inductive Value : Type :=
| VStr (s : string)
| VBool (b : bool).

Inductive Call : Type :=
| Cp (path : string)                                  (* e.cp(path) *)
| Rm (paths : list string)                            (* e.rm(p1, p2, ...) *)
| Cd (path : string)                                  (* e.cd(path) *)
| Info (msg : string)                                 (* e.info(msg) *)
| InfoFormat (fmt : string) (arg : dict string)       (* e.info(fmt.format(d)) *)
| Run (args : list string) (kwargs : dict Value)      (* e.run(args..., kwargs...) *)
| SourceCopy (src dst : string) (include exclude : option (list string))
             (ignore_git : bool) (rename_files : dict string)
                                                      (* source.copy(cmdr=e, ...) *)
| CompressDir (src dst : string)                      (* source.compress_dir(e, src, dst) *)
| TarOpen (target mode : string)                      (* tarfile.open(target, mode) *)
| TarAdd (name arcname : string)                      (* archive.add(name, arcname=...) *)
| TarClose.                                           (* archive.close() *)

Definition Trace : Type := list Call.

Inductive Exn : Type :=
| MissingDockerfileError (env_name : string)
| ConfigurationError (msg : string)
| NotImplementedError (msg : string)
| CommanderStop (msg : string)
| KeyError (key : string)     (* d[key] on a dict without that key *)
| MissingLockFiles            (* raised by dependencies.check_lock_files_exist *)
| PackageNotFound             (* raised by source.find_package_name_and_version *)
| CallFailed (c : Call).      (* a collaborator's call raised *)

(** One entry of [dependencies.get_task_dependency_files]'s result, a dict
    such as [{'dependency': ..., 'lock': ...}]; the key ['lock'] is there
    when the lock file is. *)
Definition Paths : Type := dict string.

(** What the module cannot see of its surroundings.  The file system is
    changed by the calls the module issues (and [e.cd] moves the working
    directory), so the queries take the trace issued so far. *)
Record World : Type := mkWorld {
  is_file : Trace -> string -> bool;         (* Path(p).is_file() *)
  path_exists : Trace -> string -> bool;     (* Path(p).exists() *)
  succeeds : Trace -> Call -> bool;          (* the call returns, not raises *)
  find_package_name_and_version : option (string * string);
  check_lock_files_exist : bool;
  get_task_dependency_files : string -> string -> dict Paths;
  get_home_dir : string;                     (* telemetry.get_home_dir() *)
  expanduser : string -> string              (* Path.expanduser() *)
}.

(** The configuration object [cfg], with the attributes the module reads. *)
Record Config : Type := mkConfig {
  repository : option string;
  include : option (list string);
  exclude : option (list string)
}.

(** ** Trace and exception monad *)

Definition M (A : Type) : Type := Trace -> Trace * (Exn + A).

Definition ret {A} (a : A) : M A := fun tr => (tr, inr a).

Definition bind {A B} (m : M A) (k : A -> M B) : M B :=
  fun tr =>
    match m tr with
    | (tr', inl x) => (tr', inl x)
    | (tr', inr a) => k a tr'
    end.

Definition raise {A} (x : Exn) : M A := fun tr => (tr, inl x).

Notation "x <- m ;; k" := (bind m (fun x => k))
  (at level 61, m at next level, right associativity).
Notation "m ;; k" := (bind m (fun _ => k))
  (at level 61, right associativity).

(** [for x in xs: s = body x s], stopping at the first exception. *)
Fixpoint for_each {X S} (xs : list X) (body : X -> S -> M S) (s : S) : M S :=
  match xs with
  | [] => ret s
  | x :: xs' => s' <- body x s ;; for_each xs' body s'
  end.

Definition when (b : bool) (m : M unit) : M unit :=
  if b then m else ret tt.

(** Lines 31-34: [{task: paths['lock'] for task, paths in ...items()}];
    [paths['lock']] raises [KeyError] on an entry without the key. *)
Fixpoint lock_paths_of (entries : list (string * Paths))
  : Exn + dict string :=
  match entries with
  | [] => inr []
  | (task, paths) :: entries' =>
      match get paths "lock" with
      | None => inl (KeyError "lock")
      | Some lock_file =>
          match lock_paths_of entries' with
          | inl x => inl x
          | inr lock_paths => inr ((task, lock_file) :: lock_paths)
          end
      end
  end.

Section Docker.

Variable W : World.

(** A call that leaves the module: recorded, then it returns or raises. *)
Definition call (c : Call) : M unit :=
  fun tr =>
    if succeeds W tr c then (tr ++ [c], inr tt)
    else (tr ++ [c], inl (CallFailed c)).

Definition query (q : Trace -> bool) : M bool := fun tr => (tr, inr (q tr)).

(** *** [_validate_repository] *)

Definition _validate_repository (repository : option string) : M unit :=
  match repository with
  | Some r =>
      if String.eqb r "your-repository/name" then
        raise (ConfigurationError
                 (fstr ["Invalid repository "; repr r; " ";
                        "in soopervisor.yaml, please add a valid value."]))
      else ret tt
  | None => ret tt
  end.

(** *** [get_dependencies] *)

Definition get_dependencies : Exn + (dict Paths * dict string) :=
  let requirement_files := get_task_dependency_files W "requirements" "txt" in
  let dependency_files :=
    match requirement_files with
    | _ :: _ => requirement_files
    | [] => get_task_dependency_files W "environment" "yml"
    end in
  match lock_paths_of (items dependency_files) with
  | inl x => inl x
  | inr lock_paths => inr (dependency_files, lock_paths)
  end.

(** *** [cp_ploomber_home] *)

Definition cp_ploomber_home (pkg_name : string) : M unit :=
  let home_path := Path2 (get_home_dir W) "stats" in
  let home_path := expanduser W home_path in
  home_exists <- query (fun tr => path_exists W tr home_path) ;;
  if home_exists then
    let target := Path2 "dist" (fstr [pkg_name; ".tar.gz"]) in
    call (TarOpen target "w:gz") ;;
    call (TarAdd home_path "ploomber/stats") ;;
    call TarClose
  else ret tt.

(** *** [modify_wildcard] *)

Definition modify_wildcard (entity : string) : string :=
  replace "*"%char "ploomber" entity.

(** *** [build] *)

Definition multiple_lock_files_msg : string :=
  fstr ["Multiple requirements.*.lock.txt or ";
        "environment.*.lock.yml files found along ";
        "with setup.py file. Please have either ";
        "of the two in the project root."].

(** Lines 127-129: the lock files of the mapping that differ from the
    iteration's own. *)
Definition other_lock_files (lock_paths : dict string) (lock_file : string)
  : list string :=
  filter (fun file => negb (String.eqb file lock_file)) (values lock_paths).

(** Lines 130-134. *)
Definition exclude_for (cfg : Config) (others : list string)
  : option (list string) :=
  let nonempty := match others with [] => false | _ :: _ => true end in
  if truthy_list (exclude cfg) && nonempty then
    match exclude cfg with
    | Some ex => Some (ex ++ others)
    | None => None
    end
  else if negb (truthy_list (exclude cfg)) && nonempty then Some others
  else exclude cfg.

(** Lines 136-137. *)
Definition rename_files_for (lock_file : string) : dict string :=
  if str_in "requirements" lock_file
  then [(lock_file, "requirements.lock.txt")]
  else [(lock_file, "environment.lock.yml")].

(** Lines 105-111: the body of the loop over [dependency_files.keys()]. *)
Definition reject_task_pattern (task_pattern : string) (_ : unit) : M unit :=
  if negb (String.eqb task_pattern "default")
  then raise (NotImplementedError multiple_lock_files_msg)
  else ret tt.

(** Lines 103-147: the source distribution of a package, or a copy of the
    selected files compressed into [dist/{pkg_name}.tar.gz]. *)
Definition package_code (cfg : Config) (ignore_git : bool)
    (pkg_name : string) (dependency_files : dict Paths)
    (lock_paths : dict string) (lock_file : string) : M unit :=
  setup_py <- query (fun tr => path_exists W tr "setup.py") ;;
  if setup_py then
    for_each (keys dependency_files) reject_task_pattern tt ;;
    call (Rm ["dist"; "build";
              Path3 "src" pkg_name (fstr [pkg_name; ".egg-info"])]) ;;
    call (Run ["python"; "-m"; "build"; "--sdist"]
              [("description", VStr "Packaging code")])
  else
    call (Rm ["dist"]) ;;
    let target := Path2 "dist" pkg_name in
    call (Info "Packaging code") ;;
    let others := other_lock_files lock_paths lock_file in
    let exclude := exclude_for cfg others in
    let rename_files := rename_files_for lock_file in
    call (SourceCopy "." target (include cfg) exclude ignore_git
                     rename_files) ;;
    call (CompressDir target (Path2 "dist" (fstr [pkg_name; ".tar.gz"]))).

(** Line 153. *)
Definition image_local_of (pkg_name version task : string) : string :=
  fstr [pkg_name; ":"; version; "-"; replace "*"%char "ploomber" task].

Definition docker_build (image_local : string) : Call :=
  Run ["docker"; "build"; "."; "--tag"; image_local]
      [("description", VStr "Building image")].

Definition docker_test_status (image_local entry_point : string) : Call :=
  Run ["docker"; "run"; image_local; "ploomber"; "status"; "--entry-point";
       entry_point]
      [("description", VStr "Testing image");
       ("error_message",
        VStr "Error while testing your docker image with");
       ("hint",
        VStr (fstr ["Use "; dquote; "docker run -it "; image_local;
                    " /bin/bash"; dquote; " to ";
                    "start an interactive session to debug your image"]))].

Definition test_cmd (entry_point : string) : string :=
  fstr ["from ploomber.spec import DAGSpec; ";
        "print("; dquote; "File"; dquote; " in DAGSpec("; dquote;
        entry_point; dquote; ")";
        ".to_dag().clients)"].

Definition docker_test_client (image_local entry_point : string) : Call :=
  Run ["docker"; "run"; image_local; "python"; "-c"; test_cmd entry_point]
      [("description", VStr "Testing File client");
       ("error_message", VStr "Missing File client");
       ("hint",
        VStr (fstr ["Run "; dquote; "docker run -it "; image_local;
                    " /bin/bash"; dquote; " to ";
                    "to debug your image. Ensure a File client is configured"]));
       ("capture_output", VBool true);
       ("expected_output", VStr (fstr ["True"; newline]));
       ("show_cmd", VBool false)].

Definition docker_tag (image_local image_target : string) : Call :=
  Run ["docker"; "tag"; image_local; image_target]
      [("description", VStr "Tagging")].

Definition docker_push (image_target : string) : Call :=
  Run ["docker"; "push"; image_target]
      [("description", VStr "Pushing image")].

Definition done_build_msg : string :=
  fstr ["Done. Run "; dquote; "docker images"; dquote; " to see your image."].

Definition done_push_msg : string := "Done. Image pushed to repository.".

(** Lines 199-212: the reference the image is published under. *)
Definition image_target_of (cfg : Config) (version task image_local : string)
  : string :=
  if truthy_str (repository cfg) then
    match repository cfg with
    | Some image_target =>
        if negb (str_in ":" image_target)
        then fstr [image_target; ":"; version; "-"; modify_wildcard task]
        else image_target
    | None => image_local
    end
  else image_local.

(** Lines 99-219: the body of the loop over [lock_paths.items()]. *)
Definition build_iteration (cfg : Config) (env_name : string)
    (until : option string) (entry_point : string)
    (skip_tests ignore_git : bool) (pkg_name version : string)
    (dependency_files : dict Paths) (lock_paths : dict string)
    (item : string * string) (task_pattern_image_map : dict string)
  : M (dict string) :=
  let '(task, lock_file) := item in
  lock_exists <- query (fun tr => path_exists W tr lock_file) ;;
  when lock_exists (call (Cp lock_file)) ;;
  package_code cfg ignore_git pkg_name dependency_files lock_paths lock_file ;;
  call (Cp "dist") ;;
  call (Cd env_name) ;;
  let image_local := image_local_of pkg_name version task in
  call (docker_build image_local) ;;
  when (negb skip_tests)
    (call (docker_test_status image_local entry_point) ;;
     call (docker_test_client image_local entry_point)) ;;
  if eq_str until "build" then raise (CommanderStop done_build_msg) else
  let image_target := image_target_of cfg version task image_local in
  when (truthy_str (repository cfg))
    (call (docker_tag image_local image_target) ;;
     call (docker_push image_target)) ;;
  if eq_str until "push" then raise (CommanderStop done_push_msg) else
  let task_pattern_image_map := set task_pattern_image_map task image_target in
  call (Rm ["dist"]) ;;
  call (Cd "..") ;;
  ret task_pattern_image_map.

Definition build (cfg : Config) (env_name : string) (until : option string)
    (entry_point : string) (skip_tests ignore_git : bool)
  : M (string * dict string) :=
  dockerfile <- query (fun tr => is_file W tr (Path2 env_name "Dockerfile")) ;;
  if negb dockerfile then raise (MissingDockerfileError env_name) else
  _validate_repository (repository cfg) ;;
  match find_package_name_and_version W with
  | None => raise PackageNotFound
  | Some (pkg_name, version) =>
      if negb (check_lock_files_exist W) then raise MissingLockFiles else
      match get_dependencies with
      | inl x => raise x
      | inr (dependency_files, lock_paths) =>
          task_pattern_image_map <-
            for_each (items lock_paths)
              (build_iteration cfg env_name until entry_point skip_tests
                 ignore_git pkg_name version dependency_files lock_paths)
              [] ;;
          call (InfoFormat "Images generated : {}" task_pattern_image_map) ;;
          ret (pkg_name, task_pattern_image_map)
      end
  end.

End Docker.

(** What [get_dependencies] returned: the dependency files and the lock
    paths the loop of [build] goes over; both empty when it raised. *)
Definition dependencies_found (W : World) : dict Paths * dict string :=
  match get_dependencies W with
  | inr found => found
  | inl _ => ([], [])
  end.

Arguments call W c tr /.
Arguments query q tr /.

(** ** Reading traces *)


(** An invocation of the container tool through [e.run]. *)
Definition is_docker (c : Call) : bool :=
  match c with
  | Run ("docker" :: _) _ => true
  | _ => false
  end.

(** [docker tag ...] and [docker push ...]. *)
Definition is_tag_or_push (c : Call) : bool :=
  match c with
  | Run ("docker" :: "tag" :: _) _ => true
  | Run ("docker" :: "push" :: _) _ => true
  | _ => false
  end.

Definition is_docker_build (c : Call) : bool :=
  match c with
  | Run ("docker" :: "build" :: _) _ => true
  | _ => false
  end.

(** A write outside the Commander, as [cp_ploomber_home] does them. *)
Definition is_tar (c : Call) : bool :=
  match c with
  | TarOpen _ _ | TarAdd _ _ | TarClose => true
  | _ => false
  end.

Definition sdist_build : Call :=
  Run ["python"; "-m"; "build"; "--sdist"]
      [("description", VStr "Packaging code")].

(** ** Assumptions on the surroundings *)

(** The steps of [build] before the loop go through: the Dockerfile is
    there, the package name and version are found, lock files exist, and
    [get_dependencies] returns. *)
Record Ready (W : World) (env_name pkg_name version : string) : Prop := {
  ready_dockerfile : is_file W [] (Path2 env_name "Dockerfile") = true;
  ready_package : find_package_name_and_version W = Some (pkg_name, version);
  ready_locks : check_lock_files_exist W = true;
  ready_dependencies : get_dependencies W = inr (dependencies_found W)
}.

Definition valid_repository (cfg : Config) : Prop :=
  repository cfg <> Some "your-repository/name".

(** No call to a collaborator raises. *)
Definition calls_succeed (W : World) : Prop :=
  forall tr c, succeeds W tr c = true.

(** A package manifest comes with the pattern [default] only. *)
Definition unambiguous (W : World) : Prop :=
  forall tr, path_exists W tr "setup.py" = true ->
             Forall (fun task_pattern => task_pattern = "default")
                    (keys (fst (dependencies_found W))).

(** ** A project on which the pipeline can be run *)

Definition requirements_of (task lock_name : string) : string * Paths :=
  (task, [("dependency", fstr ["requirements."; task; ".txt"]);
          ("lock", lock_name)]).

Definition default_group : string * Paths :=
  ("default", [("dependency", "requirements.txt");
               ("lock", "requirements.lock.txt")]).

Definition fit_group : string * Paths :=
  requirements_of "fit-*" "requirements.fit-*.lock.txt".

(** [requirements.txt] on disk without [requirements.lock.txt]. *)
Definition incomplete_group : string * Paths :=
  ("default", [("dependency", "requirements.txt")]).

(** [requirements.fit-*.txt] on disk without its lock file. *)
Definition incomplete_fit_group : string * Paths :=
  ("fit-*", [("dependency", "requirements.fit-*.txt")]).

Definition environment_group : string * Paths :=
  ("default", [("dependency", "environment.yml");
               ("lock", "environment.lock.yml")]).

(** A project with the given requirements and environment files, with or
    without [setup.py], whose environment directory [some-env] holds a
    Dockerfile; every lock file is on disk, the telemetry home directory is
    not, and every call succeeds. *)
Definition sample_world (setup_py : bool)
    (requirement_files environment_files : dict Paths) : World :=
  {| is_file := fun _ p => String.eqb p "some-env/Dockerfile";
     path_exists := fun _ p =>
       if String.eqb p "setup.py" then setup_py
       else negb (String.eqb p "home-dir/stats");
     succeeds := fun _ _ => true;
     find_package_name_and_version := Some ("sample_project", "1.2");
     check_lock_files_exist := true;
     get_task_dependency_files := fun prefix _ =>
       if String.eqb prefix "requirements" then requirement_files
       else environment_files;
     get_home_dir := "home-dir";
     expanduser := fun p => p |}.

Definition sample_config (repo : option string) : Config :=
  {| repository := repo; include := None; exclude := None |}.

(** ** Notions the statements are written with *)

(** What [s.split(c)] and [sep.join(parts)] compute, to say what
    [replace] does without running it. *)
Fixpoint split_on (c : ascii) (s : string) : list string :=
  match s with
  | EmptyString => [EmptyString]
  | String a s' =>
      if Ascii.eqb a c then EmptyString :: split_on c s'
      else match split_on c s' with
           | [] => [String a EmptyString]
           | part :: parts => String a part :: parts
           end
  end.

(** [sep.join(parts)]. *)
Fixpoint join (sep : string) (parts : list string) : string :=
  match parts with
  | [] => EmptyString
  | [part] => part
  | part :: parts' => (part ++ sep ++ join sep parts')%string
  end.

(** Every call [m] adds to a trace satisfies [P]. *)
Definition emits {A} (P : Call -> Prop) (m : M A) : Prop :=
  forall tr, Forall P tr -> Forall P (fst (m tr)).


(** Every call the loop body can issue for one entry of [lock_paths], in
    the order of the source; the tag and push commands are behind
    [if cfg.repository]. *)
Definition iteration_calls (cfg : Config) (env_name entry_point : string)
    (ignore_git : bool) (pkg_name version : string)
    (lock_paths : dict string) (item : string * string) : list Call :=
  let '(task, lock_file) := item in
  let image_local := image_local_of pkg_name version task in
  let image_target := image_target_of cfg version task image_local in
  [ Cp lock_file;
    Rm ["dist"; "build"; Path3 "src" pkg_name (fstr [pkg_name; ".egg-info"])];
    sdist_build;
    Rm ["dist"];
    Info "Packaging code";
    SourceCopy "." (Path2 "dist" pkg_name) (include cfg)
               (exclude_for cfg (other_lock_files lock_paths lock_file))
               ignore_git (rename_files_for lock_file);
    CompressDir (Path2 "dist" pkg_name)
                (Path2 "dist" (fstr [pkg_name; ".tar.gz"]));
    Cp "dist";
    Cd env_name;
    docker_build image_local;
    docker_test_status image_local entry_point;
    docker_test_client image_local entry_point ] ++
  (if truthy_str (repository cfg)
   then [docker_tag image_local image_target; docker_push image_target]
   else []) ++
  [ Rm ["dist"]; Cd ".." ].

(** The calls of the packaging step when it goes through. *)
Definition packaging_calls (setup_py : bool) (cfg : Config)
    (ignore_git : bool) (pkg_name : string) (lock_paths : dict string)
    (lock_file : string) : list Call :=
  if setup_py then
    [ Rm ["dist"; "build";
          Path3 "src" pkg_name (fstr [pkg_name; ".egg-info"])];
      sdist_build ]
  else
    [ Rm ["dist"];
      Info "Packaging code";
      SourceCopy "." (Path2 "dist" pkg_name) (include cfg)
                 (exclude_for cfg (other_lock_files lock_paths lock_file))
                 ignore_git (rename_files_for lock_file);
      CompressDir (Path2 "dist" pkg_name)
                  (Path2 "dist" (fstr [pkg_name; ".tar.gz"])) ].

(** The calls of one iteration on which nothing raises but, possibly, the
    pipeline-halt signal; [lock_exists] and [setup_py] are the answers of
    the file system to the two queries of the iteration. *)
Definition iteration_trace (lock_exists setup_py : bool) (cfg : Config)
    (env_name : string) (until : option string) (entry_point : string)
    (skip_tests ignore_git : bool) (pkg_name version : string)
    (lock_paths : dict string) (item : string * string) : list Call :=
  let '(task, lock_file) := item in
  let image_local := image_local_of pkg_name version task in
  let image_target := image_target_of cfg version task image_local in
  (if lock_exists then [Cp lock_file] else []) ++
  packaging_calls setup_py cfg ignore_git pkg_name lock_paths lock_file ++
  [Cp "dist"; Cd env_name; docker_build image_local] ++
  (if skip_tests then []
   else [docker_test_status image_local entry_point;
         docker_test_client image_local entry_point]) ++
  (if eq_str until "build" then []
   else
     (if truthy_str (repository cfg)
      then [docker_tag image_local image_target; docker_push image_target]
      else []) ++
     (if eq_str until "push" then [] else [Rm ["dist"]; Cd ".."])).

(** How such an iteration ends. *)
Definition iteration_outcome (cfg : Config) (until : option string)
    (pkg_name version : string) (item : string * string)
    (task_pattern_image_map : dict string) : Exn + dict string :=
  let '(task, _) := item in
  if eq_str until "build" then inl (CommanderStop done_build_msg)
  else if eq_str until "push" then inl (CommanderStop done_push_msg)
  else inr (set task_pattern_image_map task
              (image_target_of cfg version task
                 (image_local_of pkg_name version task))).

(** The copy of the lock file at the head of an iteration, made when the
    file exists. *)
Definition lock_copied (W : World) (tr : Trace) (lock_file : string)
  : list Call :=
  if path_exists W tr lock_file then [Cp lock_file] else [].

(** The reference an image is published under, as a function of its task
    pattern. *)
Definition published (cfg : Config) (pkg_name version task : string)
  : string :=
  image_target_of cfg version task (image_local_of pkg_name version task).

(** The mapping after the loop has recorded every entry of [items]. *)
Definition record_all (cfg : Config) (pkg_name version : string)
    (items : dict string) (m : dict string) : dict string :=
  fold_left (fun m item => set m (fst item)
                             (published cfg pkg_name version (fst item)))
            items m.

(** The message [_validate_repository] raises with, written out. *)
Definition invalid_repository_msg : string :=
  "Invalid repository 'your-repository/name' in soopervisor.yaml, please add a valid value.".

(** A string holds the character [:]. *)
Definition has_colon (s : string) : Prop :=
  exists before after, s = (before ++ ":" ++ after)%string.

(** The tag and push commands of a trace, and what they name. *)
Definition tags_and_pushes (W : World) (cfg : Config) (c : Call) : Prop :=
  is_tag_or_push c = true ->
  truthy_str (repository cfg) = true /\
  exists pkg_name version task lock_file,
    find_package_name_and_version W = Some (pkg_name, version) /\
    In (task, lock_file) (snd (dependencies_found W)) /\
    (c = docker_tag (image_local_of pkg_name version task)
                    (published cfg pkg_name version task) \/
     c = docker_push (published cfg pkg_name version task)).

(** The pattern with every [*] rewritten to [ploomber]. *)
Definition normalized_pattern (task : string) : string :=
  join "ploomber" (split_on "*" task).


(** The [source.copy] calls of a trace: each belongs to one entry of
    [lock_paths], renames that entry's lock file, and excludes exactly the
    configured excludes and the lock files of the mapping other than its
    own. *)
Definition copies_exclude_others (W : World) (cfg : Config) (c : Call)
  : Prop :=
  forall src dst incl excl ignore_git rename_files,
    c = SourceCopy src dst incl excl ignore_git rename_files ->
    exists task lock_file,
      In (task, lock_file) (snd (dependencies_found W)) /\
      rename_files = rename_files_for lock_file /\
      forall file,
        (exists l, excl = Some l /\ In file l) <->
        (((exists other, In (other, file) (snd (dependencies_found W))) /\
          file <> lock_file) \/
         (exists ex, exclude cfg = Some ex /\ In file ex)).

(** The closing [e.info] that reports the mapping. *)
Definition is_report (c : Call) : bool :=
  match c with
  | InfoFormat _ _ => true
  | _ => false
  end.

(** ** Notions for the further properties *)

(** How a computation may fail: whenever [m] ends in an exception, the
    trace it leaves and the exception satisfy [R]. *)
Definition fails_with {A} (R : Trace -> Exn -> Prop) (m : M A) : Prop :=
  forall tr tr' x, m tr = (tr', inl x) -> R tr' x.

(** What lies behind each exception a run of [build] can end in. *)
Definition caused (W : World) (cfg : Config) (env_name : string)
    (until : option string) (tr : Trace) (x : Exn) : Prop :=
  match x with
  | MissingDockerfileError name =>
      name = env_name /\
      is_file W [] (Path2 env_name "Dockerfile") = false /\ tr = []
  | ConfigurationError msg =>
      msg = invalid_repository_msg /\
      repository cfg = Some "your-repository/name" /\ tr = []
  | PackageNotFound =>
      find_package_name_and_version W = None /\ tr = []
  | MissingLockFiles =>
      check_lock_files_exist W = false /\ tr = []
  | NotImplementedError msg =>
      msg = multiple_lock_files_msg /\
      (exists tr0, path_exists W tr0 "setup.py" = true) /\
      Exists (fun task_pattern => task_pattern <> "default")
             (keys (fst (dependencies_found W)))
  | CommanderStop msg =>
      (until = Some "build" /\ msg = done_build_msg) \/
      (until = Some "push" /\ msg = done_push_msg)
  | KeyError key =>
      get_dependencies W = inl (KeyError key) /\ tr = []
  | CallFailed c =>
      exists before, tr = before ++ [c] /\ succeeds W before c = false
  end.

(** The part of [caused] that holds of the exceptions raised inside the
    loop, whatever the trace so far. *)
Definition caused_in_loop (W : World) (until : option string)
    (dependency_files : dict Paths) (tr : Trace) (x : Exn) : Prop :=
  match x with
  | NotImplementedError msg =>
      msg = multiple_lock_files_msg /\
      (exists tr0, path_exists W tr0 "setup.py" = true) /\
      Exists (fun task_pattern => task_pattern <> "default")
             (keys dependency_files)
  | CommanderStop msg =>
      (until = Some "build" /\ msg = done_build_msg) \/
      (until = Some "push" /\ msg = done_push_msg)
  | CallFailed c =>
      exists before, tr = before ++ [c] /\ succeeds W before c = false
  | _ => False
  end.

(** The container commands of one iteration that runs to its end. *)
Definition docker_commands (cfg : Config) (entry_point : string)
    (skip_tests : bool) (pkg_name version : string)
    (item : string * string) : list Call :=
  let image_local := image_local_of pkg_name version (fst item) in
  let image_target := published cfg pkg_name version (fst item) in
  docker_build image_local ::
  (if skip_tests then []
   else [ docker_test_status image_local entry_point;
          docker_test_client image_local entry_point ]) ++
  (if truthy_str (repository cfg)
   then [docker_tag image_local image_target; docker_push image_target]
   else []).

Definition is_cd (c : Call) : bool :=
  match c with
  | Cd _ => true
  | _ => false
  end.

(** [docker run ...]: the two tests of the image. *)
Definition is_docker_run (c : Call) : bool :=
  match c with
  | Run ("docker" :: "run" :: _) _ => true
  | _ => false
  end.

(** Every call an iteration can issue under the given [until] and
    [skip_tests], with or without [setup.py]. *)
Definition possible_calls (cfg : Config) (env_name : string)
    (until : option string) (entry_point : string)
    (skip_tests ignore_git : bool) (pkg_name version : string)
    (lock_paths : dict string) (item : string * string) : list Call :=
  iteration_trace true true cfg env_name until entry_point skip_tests
    ignore_git pkg_name version lock_paths item ++
  iteration_trace true false cfg env_name until entry_point skip_tests
    ignore_git pkg_name version lock_paths item.

(** The three writes of [cp_ploomber_home]. *)
Definition home_archive (pkg_name : string) : string :=
  Path2 "dist" (fstr [pkg_name; ".tar.gz"]).

Definition home_path_of (W : World) : string :=
  expanduser W (Path2 (get_home_dir W) "stats").

(** A world like [sample_world] in which the calls rejected by [ok]
    raise, and the telemetry home directory exists when [home] is set. *)
Definition failing_world (home : bool) (ok : Call -> bool)
    (requirement_files : dict Paths) : World :=
  {| is_file := fun _ p => String.eqb p "some-env/Dockerfile";
     path_exists := fun _ p =>
       if String.eqb p "home-dir/stats" then home
       else negb (String.eqb p "setup.py");
     succeeds := fun _ c => ok c;
     find_package_name_and_version := Some ("sample_project", "1.2");
     check_lock_files_exist := true;
     get_task_dependency_files := fun prefix _ =>
       if String.eqb prefix "requirements" then requirement_files else [];
     get_home_dir := "home-dir";
     expanduser := fun p => p |}.

(** The calls of an iteration outside its packaging step. *)
Definition image_stage_calls (cfg : Config) (env_name entry_point : string)
    (pkg_name version : string) (item : string * string) : list Call :=
  let '(task, lock_file) := item in
  let image_local := image_local_of pkg_name version task in
  let image_target := image_target_of cfg version task image_local in
  [ Cp lock_file; Cp "dist"; Cd env_name;
    docker_build image_local;
    docker_test_status image_local entry_point;
    docker_test_client image_local entry_point;
    docker_tag image_local image_target;
    docker_push image_target;
    Rm ["dist"]; Cd ".." ].

(** The calls of the ad hoc packaging: [source.copy] and
    [source.compress_dir]. *)
Definition is_source_call (c : Call) : bool :=
  match c with
  | SourceCopy _ _ _ _ _ _ | CompressDir _ _ => true
  | _ => false
  end.

(** ** The monad's equations *)

Lemma bind_ret {A B} (a : A) (k : A -> M B) tr : bind (ret a) k tr = k a tr.
Proof. reflexivity. Qed.

Lemma bind_raise {A B} (x : Exn) (k : A -> M B) tr :
  bind (raise x) k tr = (tr, inl x).
Proof. reflexivity. Qed.

Lemma bind_query {B} (q : Trace -> bool) (k : bool -> M B) tr :
  bind (query q) k tr = k (q tr) tr.
Proof. reflexivity. Qed.

Lemma bind_call {B} W c (k : unit -> M B) tr :
  calls_succeed W -> bind (call W c) k tr = k tt (tr ++ [c]).
Proof. intros Hok. unfold bind, call. now rewrite Hok. Qed.

Lemma call_ok W c tr : calls_succeed W -> call W c tr = (tr ++ [c], inr tt).
Proof. intros Hok. unfold call. now rewrite Hok. Qed.

Lemma bind_assoc {A B C} (m : M A) (k : A -> M B) (h : B -> M C) tr :
  bind (bind m k) h tr = bind m (fun a => bind (k a) h) tr.
Proof. unfold bind. destruct (m tr) as [tr' [x | a]]; reflexivity. Qed.

Lemma bind_ok {A B} (m : M A) (k : A -> M B) tr tr' a :
  m tr = (tr', inr a) -> bind m k tr = k a tr'.
Proof. intros H. unfold bind. now rewrite H. Qed.

Lemma bind_fail {A B} (m : M A) (k : A -> M B) tr tr' x :
  m tr = (tr', inl x) -> bind m k tr = (tr', inl x).
Proof. intros H. unfold bind. now rewrite H. Qed.

(** ** The lock paths *)

Lemma lock_paths_of_raises entries x :
  lock_paths_of entries = inl x -> x = KeyError "lock".
Proof.
  induction entries as [|[task paths] entries IH]; cbn; [discriminate|].
  destruct (get paths "lock"); [|now intros [= <-]].
  destruct (lock_paths_of entries); [|discriminate].
  intros [= <-]. now apply IH.
Qed.


(** When the comprehension returns, it has one lock path per entry, under
    the entry's pattern, and that path is the entry's ['lock']. *)
Lemma lock_paths_of_returns entries lock_paths :
  lock_paths_of entries = inr lock_paths ->
  Forall2 (fun entry item =>
             fst item = fst entry /\
             get (snd entry) "lock" = Some (snd item))
          entries lock_paths.
Proof.
  revert lock_paths.
  induction entries as [|[task paths] entries IH]; cbn; intros lock_paths.
  - intros [= <-]. constructor.
  - destruct (get paths "lock") as [lock_file|] eqn:El; [|discriminate].
    destruct (lock_paths_of entries) as [x|rest]; [discriminate|].
    intros [= <-]. constructor; [now split|now apply IH].
Qed.

Lemma lock_paths_of_total entries :
  Forall (fun entry => get (snd entry) "lock" <> None) entries ->
  exists lock_paths, lock_paths_of entries = inr lock_paths.
Proof.
  induction 1 as [|[task paths] entries Hl _ [rest IH]]; cbn.
  - now eexists.
  - cbn in Hl. destruct (get paths "lock"); [|contradiction].
    rewrite IH. now eexists.
Qed.

Lemma lock_paths_of_missing entries :
  Exists (fun entry => get (snd entry) "lock" = None) entries ->
  lock_paths_of entries = inl (KeyError "lock").
Proof.
  induction entries as [|[task paths] entries IH]; intros H;
    [inversion H|].
  cbn. destruct (get paths "lock") eqn:El; [|reflexivity].
  inversion H as [? ? Hh|? ? Ht]; subst.
  - cbn in Hh. congruence.
  - now rewrite (IH Ht).
Qed.

Lemma Forall2_keys (entries : list (string * Paths))
      (lock_paths : dict string) :
  Forall2 (fun entry item =>
             fst item = fst entry /\
             get (snd entry) "lock" = Some (snd item))
          entries lock_paths ->
  keys lock_paths = keys entries.
Proof.
  induction 1 as [|entry item entries lock_paths [Hk _] _ IH];
    [reflexivity|].
  unfold keys in *. cbn [map]. now rewrite Hk, IH.
Qed.

(** ** Strings *)

Lemma split_on_cons c s : exists part parts, split_on c s = part :: parts.
Proof.
  destruct s as [|a s]; simpl; [now eexists; eexists|].
  destruct (Ascii.eqb a c); [now eexists; eexists|].
  destruct (split_on c s); now eexists; eexists.
Qed.

Lemma replace_split_join old new s :
  replace old new s = join new (split_on old s).
Proof.
  induction s as [|a s IH]; [reflexivity|].
  simpl. destruct (split_on_cons old s) as (part & parts & E).
  rewrite E in *. destruct (Ascii.eqb a old).
  - now rewrite IH.
  - rewrite IH. destruct parts; reflexivity.
Qed.

Lemma append_assoc (a b c : string) :
  ((a ++ b) ++ c)%string = (a ++ (b ++ c))%string.
Proof. induction a as [|x a IH]; simpl; [reflexivity|now rewrite IH]. Qed.

Lemma replace_app old new a b :
  replace old new (a ++ b) =
  (replace old new a ++ replace old new b)%string.
Proof.
  induction a as [|x a IH]; simpl; [reflexivity|].
  destruct (Ascii.eqb x old); rewrite IH; [now rewrite append_assoc|reflexivity].
Qed.

Lemma prefix_spec sub s :
  String.prefix sub s = true <-> exists rest, s = (sub ++ rest)%string.
Proof.
  revert s. induction sub as [|a sub IH]; intros s.
  - split; [intros _; now exists s|now destruct s].
  - destruct s as [|b s]; simpl.
    + split; [discriminate|intros [rest H]; discriminate].
    + destruct (ascii_dec a b) as [->|Hne].
      * rewrite IH. split; intros [rest H]; exists rest.
        -- now rewrite H.
        -- now injection H.
      * split; [discriminate|].
        intros [rest H]. injection H as H1 _. now symmetry in H1.
Qed.

(** [sub in s] holds exactly of the strings that have [sub] somewhere
    inside. *)
Lemma str_in_spec sub s :
  str_in sub s = true <->
  exists before after, s = (before ++ sub ++ after)%string.
Proof.
  induction s as [|c s IH].
  - cbn [str_in]. rewrite orb_false_r, prefix_spec. split.
    + intros [rest H]. now exists EmptyString, rest.
    + intros (before & after & H). exists after.
      destruct before; [exact H|discriminate].
  - cbn [str_in]. rewrite orb_true_iff, IH, prefix_spec. split.
    + intros [[rest H] | (before & after & H)].
      * now exists EmptyString, rest.
      * exists (String c before), after. simpl. now rewrite H.
    + intros (before & after & H). destruct before as [|b before].
      * left. now exists after.
      * right. exists before, after. simpl in H. now injection H.
Qed.

Lemma str_in_char_cons (c a : ascii) (s : string) :
  str_in (String c EmptyString) (String a s) =
  Ascii.eqb c a || str_in (String c EmptyString) s.
Proof.
  cbn [str_in String.prefix].
  destruct (ascii_dec c a) as [->|Hne].
  - rewrite Ascii.eqb_refl. now destruct s.
  - apply Ascii.eqb_neq in Hne. now rewrite Hne.
Qed.

(** A string without the character comes back unchanged. *)
Lemma replace_absent old new s :
  str_in (String old EmptyString) s = false -> replace old new s = s.
Proof.
  induction s as [|a s IH]; [reflexivity|].
  rewrite str_in_char_cons, orb_false_iff. intros [Hc Hs].
  simpl. rewrite Ascii.eqb_sym, Hc. now rewrite IH.
Qed.

Lemma modify_wildcard_no_star s : str_in "*" (modify_wildcard s) = false.
Proof.
  unfold modify_wildcard. induction s as [|a s IH]; [reflexivity|].
  simpl. destruct (Ascii.eqb a "*") eqn:E.
  - change ("ploomber" ++ replace "*" "ploomber" s)%string
      with (String "p" (String "l" (String "o" (String "o" (String "m"
             (String "b" (String "e" (String "r"
                (replace "*" "ploomber" s))))))))).
    repeat (rewrite str_in_char_cons; simpl). exact IH.
  - rewrite str_in_char_cons, Ascii.eqb_sym, E. exact IH.
Qed.

(** ** What a computation may issue, and how it may end *)

Section Emits.

Context {P : Call -> Prop}.

Lemma emits_ret {A} (a : A) : emits P (ret a).
Proof. intros tr H. exact H. Qed.

Lemma emits_raise {A} x : emits P (@raise A x).
Proof. intros tr H. exact H. Qed.

Lemma emits_query q : emits P (query q).
Proof. intros tr H. exact H. Qed.

Lemma emits_call W c : P c -> emits P (call W c).
Proof.
  intros Hc tr H. unfold call.
  destruct (succeeds W tr c); simpl; apply Forall_app; auto.
Qed.

Lemma emits_bind {A B} (m : M A) (k : A -> M B) :
  emits P m -> (forall a, emits P (k a)) -> emits P (bind m k).
Proof.
  intros Hm Hk tr H. unfold bind. specialize (Hm tr H).
  destruct (m tr) as [tr' [x | a]]; simpl in *; [exact Hm|].
  now apply Hk.
Qed.

Lemma emits_when b m : emits P m -> emits P (when b m).
Proof. destruct b; simpl; [auto|intros _; apply emits_ret]. Qed.

Lemma emits_for_each {X S} (xs : list X) (body : X -> S -> M S) :
  (forall x s, In x xs -> emits P (body x s)) ->
  forall s, emits P (for_each xs body s).
Proof.
  induction xs as [|x xs IH]; intros Hb s; simpl.
  - apply emits_ret.
  - apply emits_bind; [apply Hb; now left|].
    intros s'. apply IH. intros y t Hy. apply Hb. now right.
Qed.

End Emits.







(** ** The calls of one iteration *)

Ltac in_list := simpl; repeat (first [left; reflexivity | right]).

Ltac emits_step H :=
  first
    [ apply emits_ret
    | apply emits_raise
    | apply emits_query
    | apply emits_call; apply H; in_list
    | apply emits_when
    | apply emits_bind; [|intros ?] ].

Lemma package_code_emits P W cfg ignore_git pkg_name dependency_files
      lock_paths env_name entry_point version task lock_file :
  (forall c, In c (iteration_calls cfg env_name entry_point ignore_git
                     pkg_name version lock_paths (task, lock_file)) -> P c) ->
  emits P (package_code W cfg ignore_git pkg_name dependency_files
             lock_paths lock_file).
Proof.
  intros H. unfold package_code.
  apply emits_bind; [apply emits_query|]. intros [|].
  - apply emits_bind.
    + apply emits_for_each. intros x [] _. unfold reject_task_pattern.
      destruct (negb (x =? "default")%string);
        [apply emits_raise|apply emits_ret].
    + intros _. repeat emits_step H.
  - repeat emits_step H.
Qed.

Lemma build_iteration_emits P W cfg env_name until entry_point skip_tests
      ignore_git pkg_name version dependency_files lock_paths item m :
  (forall c, In c (iteration_calls cfg env_name entry_point ignore_git
                     pkg_name version lock_paths item) -> P c) ->
  emits P (build_iteration W cfg env_name until entry_point skip_tests
             ignore_git pkg_name version dependency_files lock_paths item m).
Proof.
  destruct item as [task lock_file]. intros H. unfold build_iteration.
  apply emits_bind; [apply emits_query|]. intros lock_exists.
  apply emits_bind; [repeat emits_step H|]. intros _.
  apply emits_bind;
    [eapply package_code_emits with (env_name := env_name); exact H|].
  intros _. do 3 (apply emits_bind; [repeat emits_step H|]; intros _).
  apply emits_bind; [repeat emits_step H|]. intros _.
  destruct (eq_str until "build"); [apply emits_raise|].
  apply emits_bind.
  { cbn [iteration_calls] in H.
    destruct (truthy_str (repository cfg)); repeat emits_step H. }
  intros _. destruct (eq_str until "push"); [apply emits_raise|].
  cbn [iteration_calls] in H.
  destruct (truthy_str (repository cfg)); repeat emits_step H.
Qed.

(** Every call in a trace of [build] is one of some iteration's calls, or
    the closing report of the mapping. *)
Lemma build_emits (P : Call -> Prop) W cfg env_name until entry_point
      skip_tests ignore_git :
  (forall pkg_name version item c,
      find_package_name_and_version W = Some (pkg_name, version) ->
      In item (snd (dependencies_found W)) ->
      In c (iteration_calls cfg env_name entry_point ignore_git pkg_name
              version (snd (dependencies_found W)) item) ->
      P c) ->
  (forall m, P (InfoFormat "Images generated : {}" m)) ->
  Forall P (fst (build W cfg env_name until entry_point skip_tests
                   ignore_git [])).
Proof.
  intros Hit Hinfo.
  assert (E : emits P (build W cfg env_name until entry_point skip_tests
                         ignore_git)); [|apply E; constructor].
  unfold build. apply emits_bind; [apply emits_query|]. intros dockerfile.
  destruct (negb dockerfile); [apply emits_raise|].
  apply emits_bind.
  { unfold _validate_repository. destruct (repository cfg) as [r|];
      [destruct (r =? _)%string|]; first [apply emits_raise|apply emits_ret]. }
  intros _. destruct (find_package_name_and_version W) as [[pkg_name version]|];
    [|apply emits_raise].
  destruct (negb (check_lock_files_exist W)); [apply emits_raise|].
  destruct (get_dependencies W) as [x|[df lp]] eqn:Egd; [apply emits_raise|].
  assert (Ef : dependencies_found W = (df, lp))
    by (unfold dependencies_found; now rewrite Egd).
  rewrite Ef in *. cbn [fst snd] in *.
  apply emits_bind.
  - apply emits_for_each. intros item m Hin.
    apply build_iteration_emits. intros c Hc.
    now apply (Hit pkg_name version item).
  - intros m. apply emits_bind; [apply emits_call, Hinfo|].
    intros _. apply emits_ret.
Qed.


Lemma eq_str_false until lit :
  until <> Some lit -> eq_str until lit = false.
Proof.
  destruct until as [s|]; simpl; [|reflexivity].
  intros H. apply String.eqb_neq. congruence.
Qed.





(** ** Runs on which no collaborator raises *)

Lemma validate_repository_ok cfg :
  valid_repository cfg -> _validate_repository (repository cfg) = ret tt.
Proof.
  unfold valid_repository, _validate_repository.
  destruct (repository cfg) as [r|]; [|reflexivity].
  intros H. destruct (r =? "your-repository/name")%string eqn:E;
    [|reflexivity].
  apply String.eqb_eq in E. congruence.
Qed.

(** Past the checks that come before the loop, [build] is the loop and the
    closing report. *)
Lemma build_ready W cfg env_name until entry_point skip_tests ignore_git
      pkg_name version :
  Ready W env_name pkg_name version -> valid_repository cfg ->
  build W cfg env_name until entry_point skip_tests ignore_git [] =
  (task_pattern_image_map <-
     for_each (snd (dependencies_found W))
       (build_iteration W cfg env_name until entry_point skip_tests
          ignore_git pkg_name version (fst (dependencies_found W))
          (snd (dependencies_found W))) [] ;;
   call W (InfoFormat "Images generated : {}" task_pattern_image_map) ;;
   ret (pkg_name, task_pattern_image_map)) [].
Proof.
  intros [Hd Hp Hl Hg] Hv. unfold build.
  rewrite bind_query, Hd. cbn [negb].
  rewrite (validate_repository_ok _ Hv), bind_ret, Hp, Hl. cbn [negb].
  rewrite Hg. now destruct (dependencies_found W).
Qed.

Lemma all_default_accepted patterns tr :
  Forall (fun task_pattern => task_pattern = "default") patterns ->
  for_each patterns reject_task_pattern tt tr = (tr, inr tt).
Proof.
  induction 1 as [|x xs Hx _ IH]; [reflexivity|].
  subst x. cbn [for_each]. unfold bind at 1. exact IH.
Qed.

Lemma some_other_rejected patterns tr :
  Exists (fun task_pattern => task_pattern <> "default") patterns ->
  for_each patterns reject_task_pattern tt tr =
  (tr, inl (NotImplementedError multiple_lock_files_msg)).
Proof.
  induction patterns as [|x xs IH]; intros H; [inversion H|].
  simpl. unfold reject_task_pattern at 1.
  destruct (x =? "default")%string eqn:E; simpl.
  - unfold bind at 1; simpl. apply IH. inversion H as [? ? Hx|]; [|assumption].
    apply String.eqb_eq in E. contradiction.
  - reflexivity.
Qed.

Lemma package_code_ok W cfg ignore_git pkg_name dependency_files lock_paths
      lock_file tr :
  calls_succeed W ->
  (path_exists W tr "setup.py" = true ->
   Forall (fun task_pattern => task_pattern = "default")
          (keys dependency_files)) ->
  package_code W cfg ignore_git pkg_name dependency_files lock_paths
    lock_file tr =
  (tr ++ packaging_calls (path_exists W tr "setup.py") cfg ignore_git
           pkg_name lock_paths lock_file, inr tt).
Proof.
  intros Hok Hdef. unfold package_code. rewrite bind_query.
  destruct (path_exists W tr "setup.py"); cbn [packaging_calls].
  - rewrite (bind_ok _ _ _ _ _ (all_default_accepted _ tr (Hdef eq_refl))).
    rewrite bind_call, call_ok by assumption.
    now rewrite <- app_assoc.
  - rewrite !bind_call, call_ok by assumption.
    now rewrite <- !app_assoc.
Qed.

Lemma build_iteration_run W cfg env_name until entry_point skip_tests
      ignore_git pkg_name version dependency_files lock_paths item m tr :
  calls_succeed W ->
  (forall tr', path_exists W tr' "setup.py" = true ->
     Forall (fun task_pattern => task_pattern = "default")
            (keys dependency_files)) ->
  build_iteration W cfg env_name until entry_point skip_tests ignore_git
    pkg_name version dependency_files lock_paths item m tr =
  (tr ++ iteration_trace
           (path_exists W tr (snd item))
           (path_exists W (tr ++ lock_copied W tr (snd item)) "setup.py")
           cfg env_name until entry_point skip_tests ignore_git pkg_name
           version lock_paths item,
   iteration_outcome cfg until pkg_name version item m).
Proof.
  intros Hok Hdef. destruct item as [task lock_file].
  unfold build_iteration, iteration_trace, iteration_outcome, lock_copied.
  cbn [snd]. rewrite bind_query.
  assert (E : forall k : unit -> M (dict string),
             bind (when (path_exists W tr lock_file) (call W (Cp lock_file)))
                  k tr =
             k tt (tr ++ (if path_exists W tr lock_file
                          then [Cp lock_file] else []))).
  { intros k. destruct (path_exists W tr lock_file); cbn [when].
    - now rewrite bind_call.
    - now rewrite bind_ret, app_nil_r. }
  rewrite E. clear E.
  set (tr1 := tr ++ if path_exists W tr lock_file then [Cp lock_file] else []).
  rewrite (bind_ok _ _ _ _ _
             (package_code_ok W cfg ignore_git pkg_name dependency_files
                lock_paths lock_file tr1 Hok (Hdef tr1))).
  rewrite !bind_call by assumption.
  destruct skip_tests, (eq_str until "build"), (eq_str until "push"),
    (truthy_str (repository cfg));
    cbn [negb when];
    repeat first [ rewrite bind_ret | rewrite bind_raise
                 | rewrite bind_assoc | rewrite bind_call by assumption ];
    unfold ret, raise; subst tr1;
    rewrite <- ?app_assoc; cbn [app]; rewrite ?app_nil_r; reflexivity.
Qed.

(** ** The mapping from task patterns to images *)

Lemma get_set_same {V} (d : dict V) k v : get (set d k v) k = Some v.
Proof.
  induction d as [|[k' v'] d IH]; simpl.
  - now rewrite String.eqb_refl.
  - destruct (k' =? k)%string eqn:E; simpl; now rewrite E.
Qed.

Lemma get_set_other {V} (d : dict V) k v k' :
  k <> k' -> get (set d k v) k' = get d k'.
Proof.
  intros Hne. induction d as [|[a w] d IH]; simpl.
  - apply String.eqb_neq in Hne. now rewrite Hne.
  - destruct (a =? k)%string eqn:E; simpl.
    + apply String.eqb_eq in E. subst a.
      apply String.eqb_neq in Hne. now rewrite Hne.
    + now rewrite IH.
Qed.

Lemma get_record_all cfg pkg_name version items : forall m task,
  (In task (keys items) ->
   get (record_all cfg pkg_name version items m) task =
   Some (published cfg pkg_name version task)) /\
  (~ In task (keys items) ->
   get (record_all cfg pkg_name version items m) task = get m task).
Proof.
  induction items as [|[k lock_file] items IH]; intros m task.
  - split; [intros []|reflexivity].
  - cbn [record_all fold_left fst keys map].
    fold (record_all cfg pkg_name version items
            (set m k (published cfg pkg_name version k))).
    destruct (IH (set m k (published cfg pkg_name version k)) task)
      as [IH1 IH2].
    destruct (in_dec string_dec task (keys items)) as [Hin|Hnin].
    + split; [intros _; now apply IH1|].
      intros Hn. exfalso. apply Hn. now right.
    + split.
      * intros [->|Hin]; [|contradiction].
        rewrite IH2 by assumption. apply get_set_same.
      * intros Hn. rewrite IH2 by assumption.
        apply get_set_other. intros ->. apply Hn. now left.
Qed.

(** ** Runs that reach the end of the loop *)

Lemma loop_completes W cfg env_name until entry_point skip_tests ignore_git
      pkg_name version dependency_files lock_paths :
  calls_succeed W ->
  (forall tr', path_exists W tr' "setup.py" = true ->
     Forall (fun task_pattern => task_pattern = "default")
            (keys dependency_files)) ->
  until <> Some "build" -> until <> Some "push" ->
  forall todo m tr,
  exists ext,
    for_each todo
      (build_iteration W cfg env_name until entry_point skip_tests ignore_git
         pkg_name version dependency_files lock_paths) m tr =
    (tr ++ ext, inr (record_all cfg pkg_name version todo m)) /\
    forall item, In item todo ->
      exists lock_exists tr',
        incl (iteration_trace lock_exists (path_exists W tr' "setup.py")
                cfg env_name until entry_point skip_tests ignore_git
                pkg_name version lock_paths item) ext.
Proof.
  intros Hok Hdef Hb Hp. intros todo; induction todo as [|item todo IH]; intros m tr.
  - exists []. split; [now rewrite app_nil_r|intros ? []].
  - cbn [for_each].
    pose proof (build_iteration_run W cfg env_name until entry_point
                  skip_tests ignore_git pkg_name version dependency_files
                  lock_paths item m tr Hok Hdef) as Hrun.
    unfold iteration_outcome in Hrun. destruct item as [task lock_file].
    rewrite (eq_str_false _ _ Hb), (eq_str_false _ _ Hp) in Hrun.
    rewrite (bind_ok _ _ _ _ _ Hrun).
    match type of Hrun with _ = (tr ++ ?it, inr ?m1) =>
      destruct (IH m1 (tr ++ it)) as (ext & Hloop & Hext);
      exists (it ++ ext)
    end.
    split.
    + rewrite Hloop. now rewrite <- app_assoc.
    + intros item [<-|Hin].
      * do 2 eexists. apply incl_appl, incl_refl.
      * destruct (Hext item Hin) as (b1 & tr' & Hi).
        exists b1, tr'. now apply incl_appr.
Qed.

(** The lock paths found go with the dependency files found, entry by
    entry. *)
Lemma lock_paths_of_dependency_files W :
  Forall2 (fun entry item =>
             fst item = fst entry /\
             get (snd entry) "lock" = Some (snd item))
          (fst (dependencies_found W)) (snd (dependencies_found W)).
Proof.
  unfold dependencies_found, get_dependencies, items.
  destruct (lock_paths_of _) as [x|lock_paths] eqn:E; cbn [fst snd].
  - constructor.
  - now apply lock_paths_of_returns.
Qed.

Lemma lock_paths_keys W :
  keys (snd (dependencies_found W)) = keys (fst (dependencies_found W)).
Proof. apply Forall2_keys, lock_paths_of_dependency_files. Qed.

Lemma single_default_lock_path W paths :
  fst (dependencies_found W) = [("default", paths)] ->
  exists lock_file,
    snd (dependencies_found W) = [("default", lock_file)].
Proof.
  intros Hdf. pose proof (lock_paths_of_dependency_files W) as H.
  rewrite Hdf in H. inversion H as [|? [k l] ? rest [Hk _] Hrest]; subst.
  inversion Hrest; subst. cbn in Hk. subst k. now exists l.
Qed.

(** With no stop token and nothing raising, [build] returns the package
    name and the mapping of every pattern, and the trace holds the calls of
    every iteration. *)
Lemma build_completes W cfg env_name until entry_point skip_tests ignore_git
      pkg_name version :
  Ready W env_name pkg_name version -> valid_repository cfg ->
  calls_succeed W -> unambiguous W ->
  until <> Some "build" -> until <> Some "push" ->
  exists tr,
    build W cfg env_name until entry_point skip_tests ignore_git [] =
    (tr, inr (pkg_name,
              record_all cfg pkg_name version (snd (dependencies_found W)) []))
    /\
    forall item, In item (snd (dependencies_found W)) ->
      exists lock_exists tr',
        incl (iteration_trace lock_exists (path_exists W tr' "setup.py")
                cfg env_name until entry_point skip_tests ignore_git
                pkg_name version (snd (dependencies_found W)) item) tr.
Proof.
  intros Hr Hv Hok Hun Hb Hp.
  rewrite (build_ready _ _ _ _ _ _ _ _ _ Hr Hv).
  destruct (loop_completes W cfg env_name until entry_point skip_tests
              ignore_git pkg_name version (fst (dependencies_found W))
              (snd (dependencies_found W)) Hok Hun Hb Hp
              (snd (dependencies_found W)) [] [])
    as (ext & Hloop & Hext).
  cbn [app] in Hloop. rewrite (bind_ok _ _ _ _ _ Hloop).
  rewrite bind_call by assumption. unfold ret.
  eexists. split; [reflexivity|].
  intros item Hin. destruct (Hext item Hin) as (b1 & tr' & Hi).
  exists b1, tr'. now apply incl_appl.
Qed.

(** ** Dependency discovery *)

(** C7, on the code.  [get_dependencies] selects the requirements entries
    whenever [get_task_dependency_files] reports at least one, whatever
    environment entries exist beside them, and the environment entries
    only when it reports none.  Whenever it returns, it returns the
    selected entries with one lock path per entry, the entry's ['lock'];
    it returns when every selected entry has that key.  When a selected
    entry has no ['lock'] it raises [KeyError('lock')]: a requirements
    file without its lock file is not skipped in favour of a complete
    environment pair. *)
Theorem get_dependencies_requirements_first (W : World) :
  let requirement_files := get_task_dependency_files W "requirements" "txt" in
  let environment_files := get_task_dependency_files W "environment" "yml" in
  let has_lock (entry : string * Paths) := get (snd entry) "lock" <> None in
  let no_lock (entry : string * Paths) := get (snd entry) "lock" = None in
  (forall dependency_files lock_paths,
     get_dependencies W = inr (dependency_files, lock_paths) ->
     (requirement_files <> [] -> dependency_files = requirement_files) /\
     (requirement_files = [] -> dependency_files = environment_files) /\
     Forall2 (fun entry item =>
                fst item = fst entry /\
                get (snd entry) "lock" = Some (snd item))
             dependency_files lock_paths)
  /\
  (requirement_files <> [] -> Forall has_lock requirement_files ->
   exists lock_paths,
     get_dependencies W = inr (requirement_files, lock_paths))
  /\
  (requirement_files = [] -> Forall has_lock environment_files ->
   exists lock_paths,
     get_dependencies W = inr (environment_files, lock_paths))
  /\
  (requirement_files <> [] -> Exists no_lock requirement_files ->
   get_dependencies W = inl (KeyError "lock"))
  /\
  (requirement_files = [] -> Exists no_lock environment_files ->
   get_dependencies W = inl (KeyError "lock")).
Proof.
  cbv zeta. unfold get_dependencies, items.
  destruct (get_task_dependency_files W "requirements" "txt")
    as [|entry requirement_files] eqn:Hreq.
  - split; [|split; [|split; [|split]]].
    + intros df lp H.
      destruct (lock_paths_of _) as [x|lp'] eqn:E in H; [discriminate H|].
      injection H as <- <-.
      split; [congruence|split; [reflexivity|]].
      now apply lock_paths_of_returns.
    + congruence.
    + intros _ Hall. destruct (lock_paths_of_total _ Hall) as [lp E].
      rewrite E. now exists lp.
    + congruence.
    + intros _ Hex. now rewrite (lock_paths_of_missing _ Hex).
  - split; [|split; [|split; [|split]]].
    + intros df lp H.
      destruct (lock_paths_of _) as [x|lp'] eqn:E in H; [discriminate H|].
      injection H as <- <-.
      split; [reflexivity|split; [discriminate|]].
      now apply lock_paths_of_returns.
    + intros _ Hall. destruct (lock_paths_of_total _ Hall) as [lp E].
      rewrite E. now exists lp.
    + discriminate.
    + intros _ Hex. now rewrite (lock_paths_of_missing _ Hex).
    + discriminate.
Qed.

(** [requirements.txt] without its lock file beside a complete environment
    pair: no fallback, a [KeyError]; and a complete requirements pair
    beside [requirements.fit-*.txt] without its lock file: a [KeyError]
    again. *)
Lemma get_dependencies_requirements_first_witness :
  get_dependencies
    (sample_world false [incomplete_group] [environment_group]) =
  inl (KeyError "lock") /\
  get_dependencies
    (sample_world false [default_group; incomplete_fit_group]
       [environment_group]) =
  inl (KeyError "lock").
Proof.
  split.
  - apply (proj1 (proj2 (proj2 (proj2
             (get_dependencies_requirements_first
                (sample_world false [incomplete_group]
                   [environment_group])))))).
    + discriminate.
    + left. reflexivity.
  - apply (proj1 (proj2 (proj2 (proj2
             (get_dependencies_requirements_first
                (sample_world false [default_group; incomplete_fit_group]
                   [environment_group])))))).
    + discriminate.
    + right. left. reflexivity.
Defined.

(** ** The placeholder repository *)

(** C6.  When the configured repository is the placeholder
    [your-repository/name], [build] issues no call at all; in an
    environment directory that holds a Dockerfile it raises
    [ConfigurationError] with the message above.  On every other
    repository value, [None] included, [_validate_repository] returns. *)
Theorem placeholder_repository_rejected (W : World) (cfg : Config)
    (env_name : string) (until : option string) (entry_point : string)
    (skip_tests ignore_git : bool) :
  repository cfg = Some "your-repository/name" ->
  (is_file W [] (Path2 env_name "Dockerfile") = true ->
   build W cfg env_name until entry_point skip_tests ignore_git [] =
   ([], inl (ConfigurationError invalid_repository_msg)))
  /\
  fst (build W cfg env_name until entry_point skip_tests ignore_git []) = []
  /\
  (forall other tr,
     other <> Some "your-repository/name" ->
     _validate_repository other tr = (tr, inr tt)).
Proof.
  intros Hrepo.
  assert (Hbuild :
    build W cfg env_name until entry_point skip_tests ignore_git [] =
    if is_file W [] (Path2 env_name "Dockerfile")
    then ([], inl (ConfigurationError invalid_repository_msg))
    else ([], inl (MissingDockerfileError env_name))).
  { unfold build. rewrite bind_query.
    destruct (is_file W [] (Path2 env_name "Dockerfile")); cbn [negb];
      [|reflexivity].
    rewrite Hrepo. reflexivity. }
  split; [|split].
  - intros Hd. now rewrite Hbuild, Hd.
  - rewrite Hbuild. now destruct (is_file W [] (Path2 env_name "Dockerfile")).
  - intros other tr Hne. unfold _validate_repository.
    destruct other as [r|]; [|reflexivity].
    destruct (r =? "your-repository/name")%string eqn:E; [|reflexivity].
    apply String.eqb_eq in E. congruence.
Qed.

Lemma placeholder_repository_rejected_witness :
  build (sample_world false [default_group] [])
        (sample_config (Some "your-repository/name"))
        "some-env" None "pipeline.yaml" true false [] =
  ([], inl (ConfigurationError invalid_repository_msg)).
Proof.
  apply (proj1 (placeholder_repository_rejected
                  (sample_world false [default_group] [])
                  (sample_config (Some "your-repository/name"))
                  "some-env" None "pipeline.yaml" true false eq_refl)).
  reflexivity.
Defined.

(** ** Image references *)

Lemma append_empty_r (s : string) : (s ++ EmptyString)%string = s.
Proof. induction s as [|a s IH]; simpl; [reflexivity|now rewrite IH]. Qed.

Lemma image_local_of_eq pkg_name version task :
  image_local_of pkg_name version task =
  (pkg_name ++ ":" ++ version ++ "-" ++ modify_wildcard task)%string.
Proof.
  unfold image_local_of, fstr, modify_wildcard. cbn [fold_right].
  now rewrite append_empty_r.
Qed.

Lemma modify_wildcard_normalized task :
  modify_wildcard task = normalized_pattern task.
Proof. apply replace_split_join. Qed.

Lemma image_target_of_tagless cfg r version task image_local :
  repository cfg = Some r -> r <> EmptyString -> str_in ":" r = false ->
  image_target_of cfg version task image_local =
  (r ++ ":" ++ version ++ "-" ++ modify_wildcard task)%string.
Proof.
  intros Hr Hne Hc. unfold image_target_of. rewrite Hr. cbn [truthy_str].
  apply String.eqb_neq in Hne. rewrite Hne, Hc. cbn [negb].
  unfold fstr. cbn [fold_right]. now rewrite append_empty_r.
Qed.

Lemma image_target_of_tagged cfg r version task image_local :
  repository cfg = Some r -> r <> EmptyString -> str_in ":" r = true ->
  image_target_of cfg version task image_local = r.
Proof.
  intros Hr Hne Hc. unfold image_target_of. rewrite Hr. cbn [truthy_str].
  apply String.eqb_neq in Hne. now rewrite Hne, Hc.
Qed.

Lemma image_target_of_local cfg version task image_local :
  truthy_str (repository cfg) = false ->
  image_target_of cfg version task image_local = image_local.
Proof. intros H. unfold image_target_of. now rewrite H. Qed.

Lemma has_colon_str_in s : has_colon s <-> str_in ":" s = true.
Proof. symmetry. apply str_in_spec. Qed.

Lemma no_colon_str_in s : ~ has_colon s <-> str_in ":" s = false.
Proof. rewrite has_colon_str_in. apply not_true_iff_false. Qed.

Lemma build_tags_and_pushes W cfg env_name until entry_point skip_tests
      ignore_git :
  Forall (tags_and_pushes W cfg)
         (fst (build W cfg env_name until entry_point skip_tests
                 ignore_git [])).
Proof.
  apply build_emits; [|intros m; discriminate].
  intros pkg_name version [task lock_file] c Hfind Hin Hc.
  cbn [iteration_calls] in Hc. unfold tags_and_pushes.
  destruct (truthy_str (repository cfg)) eqn:Ht; cbn [app] in Hc;
    repeat (destruct Hc as [<-|Hc]; try discriminate);
    try contradiction;
    intros _; (split; [reflexivity|]);
    exists pkg_name, version, task, lock_file;
    (split; [assumption|split; [assumption|]]);
    [left|right]; reflexivity.
Qed.

(** C4.  A non-empty configured repository without [:] is published as
    [{repository}:{version}-{pattern}], the pattern with every [*] replaced
    by [ploomber]; one with [:] as it stands.  On a run to the end, every
    pattern's image is tagged and pushed under that reference and recorded
    under it in the mapping [build] returns, and no tag or push command of
    any run carries another name.  Without a configured repository
    ([None] or the empty string) the reference recorded is the local tag
    and no run issues a tag or push command. *)
Theorem remote_tag_rule (W : World) (cfg : Config) (env_name : string)
    (until : option string) (entry_point : string)
    (skip_tests ignore_git : bool) (pkg_name version : string) :
  (forall r task image_local,
     repository cfg = Some r -> r <> EmptyString ->
     (~ has_colon r ->
      image_target_of cfg version task image_local =
      (r ++ ":" ++ version ++ "-" ++ normalized_pattern task)%string) /\
     (has_colon r ->
      image_target_of cfg version task image_local = r))
  /\
  (forall task image_local,
     truthy_str (repository cfg) = false ->
     image_target_of cfg version task image_local = image_local)
  /\
  Forall (tags_and_pushes W cfg)
         (fst (build W cfg env_name until entry_point skip_tests
                 ignore_git []))
  /\
  (truthy_str (repository cfg) = false ->
   Forall (fun c => is_tag_or_push c = false)
          (fst (build W cfg env_name until entry_point skip_tests
                  ignore_git [])))
  /\
  (Ready W env_name pkg_name version -> valid_repository cfg ->
   calls_succeed W -> unambiguous W ->
   until <> Some "build" -> until <> Some "push" ->
   exists tr m,
     build W cfg env_name until entry_point skip_tests ignore_git [] =
     (tr, inr (pkg_name, m)) /\
     forall task lock_file,
       In (task, lock_file) (snd (dependencies_found W)) ->
       let image_local :=
         (pkg_name ++ ":" ++ version ++ "-" ++
          normalized_pattern task)%string in
       (forall r, repository cfg = Some r -> r <> EmptyString ->
          ~ has_colon r ->
          let remote :=
            (r ++ ":" ++ version ++ "-" ++ normalized_pattern task)%string in
          In (docker_tag image_local remote) tr /\
          In (docker_push remote) tr /\
          get m task = Some remote) /\
       (forall r, repository cfg = Some r -> r <> EmptyString ->
          has_colon r ->
          In (docker_tag image_local r) tr /\
          In (docker_push r) tr /\
          get m task = Some r) /\
       (truthy_str (repository cfg) = false ->
        get m task = Some image_local)).
Proof.
  split; [|split; [|split; [|split]]].
  - intros r task image_local Hr Hne. split; intros Hc.
    + apply no_colon_str_in in Hc.
      rewrite <- modify_wildcard_normalized.
      now apply image_target_of_tagless.
    + apply has_colon_str_in in Hc. now apply image_target_of_tagged.
  - intros task image_local Hf. now apply image_target_of_local.
  - apply build_tags_and_pushes.
  - intros Hf. eapply Forall_impl; [|apply build_tags_and_pushes].
    intros c Hc. destruct (is_tag_or_push c) eqn:E; [|reflexivity].
    destruct (Hc E) as [Ht _]. congruence.
  - intros Hr Hv Hok Hun Hb Hp.
    destruct (build_completes W cfg env_name until entry_point skip_tests
                ignore_git pkg_name version Hr Hv Hok Hun Hb Hp)
      as (tr & Hbuild & Hcalls).
    exists tr. eexists. split; [exact Hbuild|].
    intros task lock_file Hin image_local.
    assert (Hm : get (record_all cfg pkg_name version
                        (snd (dependencies_found W)) []) task =
                 Some (published cfg pkg_name version task)).
    { apply get_record_all. unfold keys. apply in_map_iff.
      now exists (task, lock_file). }
    assert (Hlocal : image_local_of pkg_name version task = image_local).
    { unfold image_local.
      now rewrite image_local_of_eq, modify_wildcard_normalized. }
    assert (Hissued : truthy_str (repository cfg) = true ->
              In (docker_tag image_local
                    (published cfg pkg_name version task)) tr /\
              In (docker_push (published cfg pkg_name version task)) tr).
    { intros Ht. destruct (Hcalls _ Hin) as (b1 & tr' & Hincl).
      cbn [iteration_trace] in Hincl.
      rewrite (eq_str_false _ _ Hb), (eq_str_false _ _ Hp), Ht in Hincl.
      rewrite Hlocal in Hincl. unfold published. rewrite Hlocal.
      split; apply Hincl; do 2 (apply in_or_app; right);
        destruct skip_tests; in_list. }
    assert (Htruthy : forall r, repository cfg = Some r ->
              r <> EmptyString -> truthy_str (repository cfg) = true).
    { intros r Er Hne. rewrite Er. cbn.
      apply negb_true_iff. now apply String.eqb_neq. }
    split; [|split].
    + intros r Er Hne Hc remote.
      assert (Hpub : published cfg pkg_name version task = remote).
      { unfold published, remote. rewrite <- modify_wildcard_normalized.
        apply image_target_of_tagless; [assumption..|].
        now apply no_colon_str_in. }
      rewrite <- Hpub. destruct (Hissued (Htruthy r Er Hne)).
      now repeat split.
    + intros r Er Hne Hc.
      assert (Hpub : published cfg pkg_name version task = r).
      { unfold published. apply image_target_of_tagged; [assumption..|].
        now apply has_colon_str_in. }
      rewrite <- Hpub at 1 2 3. destruct (Hissued (Htruthy r Er Hne)).
      now repeat split.
    + intros Hf. rewrite Hm. f_equal. unfold published.
      now rewrite image_target_of_local.
Qed.

(** The repository [repo.example.com/project] on version [1.2], with the
    patterns [default] and [fit-*]: the image of [fit-*]. *)
Lemma remote_tag_rule_witness :
  exists tr m,
    build (sample_world false [default_group; fit_group] [])
          (sample_config (Some "repo.example.com/project"))
          "some-env" None "pipeline.yaml" false false [] =
    (tr, inr ("sample_project", m)) /\
    In (docker_tag "sample_project:1.2-fit-ploomber"
                   "repo.example.com/project:1.2-fit-ploomber") tr /\
    In (docker_push "repo.example.com/project:1.2-fit-ploomber") tr /\
    get m "fit-*" = Some "repo.example.com/project:1.2-fit-ploomber".
Proof.
  destruct (proj2 (proj2 (proj2 (proj2
              (remote_tag_rule
                 (sample_world false [default_group; fit_group] [])
                 (sample_config (Some "repo.example.com/project"))
                 "some-env" None "pipeline.yaml" false false
                 "sample_project" "1.2"))))
              ltac:(split; reflexivity) ltac:(discriminate)
              ltac:(intros tr c; reflexivity)
              ltac:(intros tr H; discriminate H)
              ltac:(discriminate) ltac:(discriminate))
    as (tr & m & Hbuild & Hall).
  exists tr, m. split; [exact Hbuild|].
  refine (proj1 (Hall "fit-*" "requirements.fit-*.lock.txt" _)
            "repo.example.com/project" eq_refl _ _).
  - right. left. reflexivity.
  - discriminate.
  - apply no_colon_str_in. reflexivity.
Defined.




(** ** The exclude list of the packaging step *)

Lemma other_lock_files_spec lock_paths lock_file file :
  In file (other_lock_files lock_paths lock_file) <->
  (exists task, In (task, file) lock_paths) /\ file <> lock_file.
Proof.
  unfold other_lock_files, values. rewrite filter_In, in_map_iff.
  rewrite negb_true_iff, String.eqb_neq. split.
  - intros [([task f] & E & Hin) Hne]. simpl in E. subst f.
    split; [now exists task|assumption].
  - intros [[task Hin] Hne]. split; [|assumption].
    now exists (task, file).
Qed.

(** The list passed as [exclude] holds the configured excludes and the
    other lock files, and nothing else; it is [None] or empty only when
    there is neither. *)
Lemma exclude_for_spec cfg others x :
  (exists l, exclude_for cfg others = Some l /\ In x l) <->
  (In x others \/ exists ex, exclude cfg = Some ex /\ In x ex).
Proof.
  unfold exclude_for. destruct others as [|o others].
  - rewrite !andb_false_r. split; [intros H; now right|].
    intros [[]|H]; exact H.
  - rewrite !andb_true_r.
    destruct (truthy_list (exclude cfg)) eqn:T; cbn [negb].
    + destruct (exclude cfg) as [ex|]; [|discriminate T]. split.
      * intros (l & [= <-] & Hin).
        apply in_app_or in Hin. destruct Hin as [H|H]; [right|now left].
        now exists ex.
      * intros [H|(ex' & [= <-] & H)];
          (eexists; split; [reflexivity|apply in_or_app]);
          [now right|now left].
    + split.
      * intros (l & [= <-] & H). now left.
      * intros [H|(ex & E & H)]; [now eexists; split|].
        rewrite E in T. destruct ex; [destruct H|discriminate T].
Qed.

Lemma build_copies_exclude_others W cfg env_name until entry_point
      skip_tests ignore_git :
  Forall (copies_exclude_others W cfg)
         (fst (build W cfg env_name until entry_point skip_tests
                 ignore_git [])).
Proof.
  apply build_emits; [|intros m; discriminate].
  intros pkg_name version [task lock_file] c Hfind Hin Hc.
  cbn [iteration_calls] in Hc. unfold copies_exclude_others.
  intros src dst incl excl ig rename_files Ec.
  destruct (truthy_str (repository cfg)); cbn [app] in Hc;
    repeat (destruct Hc as [<-|Hc]; try discriminate);
    try contradiction;
    injection Ec as <- <- <- <- <- <-;
    exists task, lock_file;
    (split; [assumption|split; [reflexivity|]]);
    intros file; rewrite exclude_for_spec, other_lock_files_spec;
    reflexivity.
Qed.

(** C5.  Every [source.copy] call of a run of [build] belongs to one entry
    of [lock_paths]: it renames that entry's lock file and its exclude list
    holds exactly the configured excludes and the lock files of the other
    entries.  In a project without [setup.py], a run that neither stops
    nor fails issues that call for every entry. *)
Theorem other_lock_files_excluded (W : World) (cfg : Config)
    (env_name : string) (until : option string) (entry_point : string)
    (skip_tests ignore_git : bool) :
  Forall (copies_exclude_others W cfg)
         (fst (build W cfg env_name until entry_point skip_tests
                 ignore_git []))
  /\
  (forall pkg_name version,
     Ready W env_name pkg_name version -> valid_repository cfg ->
     calls_succeed W ->
     (forall tr, path_exists W tr "setup.py" = false) ->
     until <> Some "build" -> until <> Some "push" ->
     forall task lock_file,
       In (task, lock_file) (snd (dependencies_found W)) ->
       In (SourceCopy "." (Path2 "dist" pkg_name) (include cfg)
             (exclude_for cfg
                (other_lock_files (snd (dependencies_found W)) lock_file))
             ignore_git (rename_files_for lock_file))
          (fst (build W cfg env_name until entry_point skip_tests
                  ignore_git []))).
Proof.
  split; [apply build_copies_exclude_others|].
  intros pkg_name version Hr Hv Hok Hno Hb Hp task lock_file Hin.
  assert (Hun : unambiguous W).
  { intros tr H. rewrite Hno in H. discriminate H. }
  destruct (build_completes W cfg env_name until entry_point skip_tests
              ignore_git pkg_name version Hr Hv Hok Hun Hb Hp)
    as (tr & Hbuild & Hcalls).
  rewrite Hbuild. cbn [fst].
  destruct (Hcalls _ Hin) as (b1 & tr' & Hincl).
  apply Hincl. cbn [iteration_trace]. rewrite Hno.
  apply in_or_app. right. in_list.
Qed.

(** Two patterns and a configured exclude: the copy made for [fit-*]
    excludes the configured path and the lock file of [default]. *)
Lemma other_lock_files_excluded_witness :
  In (SourceCopy "." "dist/sample_project" None
        (Some ["secrets.txt"; "requirements.lock.txt"]) false
        [("requirements.fit-*.lock.txt", "requirements.lock.txt")])
     (fst (build (sample_world false [default_group; fit_group] [])
                 {| repository := None; include := None;
                    exclude := Some ["secrets.txt"] |}
                 "some-env" None "pipeline.yaml" true false [])).
Proof.
  refine (proj2 (other_lock_files_excluded
                   (sample_world false [default_group; fit_group] [])
                   {| repository := None; include := None;
                      exclude := Some ["secrets.txt"] |}
                   "some-env" None "pipeline.yaml" true false)
            "sample_project" "1.2" _ _ _ _ _ _
            "fit-*" "requirements.fit-*.lock.txt" _).
  - split; reflexivity.
  - discriminate.
  - intros tr c. reflexivity.
  - intros tr. reflexivity.
  - discriminate.
  - discriminate.
  - right. left. reflexivity.
Defined.

(** ** The stop tokens *)

(** With a stop token, [build] ends in the first iteration. *)
Lemma build_stops_in_first_iteration W cfg env_name until entry_point
      skip_tests ignore_git pkg_name version item rest :
  Ready W env_name pkg_name version -> valid_repository cfg ->
  calls_succeed W -> unambiguous W ->
  snd (dependencies_found W) = item :: rest ->
  until = Some "build" \/ until = Some "push" ->
  build W cfg env_name until entry_point skip_tests ignore_git [] =
  (iteration_trace
     (path_exists W [] (snd item))
     (path_exists W (lock_copied W [] (snd item)) "setup.py")
     cfg env_name until entry_point skip_tests ignore_git pkg_name version
     (item :: rest) item,
   inl (CommanderStop (if eq_str until "build" then done_build_msg
                       else done_push_msg))).
Proof.
  intros Hr Hv Hok Hun Hlp Huntil.
  rewrite (build_ready _ _ _ _ _ _ _ _ _ Hr Hv), Hlp. cbn [for_each].
  rewrite bind_assoc.
  pose proof (build_iteration_run W cfg env_name until entry_point
                skip_tests ignore_git pkg_name version
                (fst (dependencies_found W)) (item :: rest) item [] []
                Hok Hun) as Hrun.
  cbn [app] in Hrun.
  assert (Hout : iteration_outcome cfg until pkg_name version item [] =
                 inl (CommanderStop (if eq_str until "build"
                                     then done_build_msg
                                     else done_push_msg))).
  { unfold iteration_outcome. destruct item as [task l].
    destruct Huntil as [-> | ->]; reflexivity. }
  rewrite Hout in Hrun. now rewrite (bind_fail _ _ _ _ _ Hrun).
Qed.



(** C9.  With [until='push'] and no repository configured ([None] or the
    empty string), on a run where the checks before the loop pass and no
    collaborator raises, [build] ends in the first iteration with
    [CommanderStop('Done. Image pushed to repository.')]: no tag or push
    command was issued, nothing is returned and the mapping is not
    reported. *)
Theorem until_push_without_repository (W : World) (cfg : Config)
    (env_name entry_point : string) (skip_tests ignore_git : bool)
    (pkg_name version task lock_file : string) (rest : dict string) :
  Ready W env_name pkg_name version ->
  truthy_str (repository cfg) = false ->
  calls_succeed W -> unambiguous W ->
  snd (dependencies_found W) = (task, lock_file) :: rest ->
  exists tr,
    build W cfg env_name (Some "push") entry_point skip_tests ignore_git []
    = (tr, inl (CommanderStop "Done. Image pushed to repository.")) /\
    filter is_tag_or_push tr = [] /\
    filter is_report tr = [] /\
    In (docker_build (image_local_of pkg_name version task)) tr.
Proof.
  intros Hr Hrepo Hok Hun Hlp.
  assert (Hv : valid_repository cfg).
  { unfold valid_repository. intros E. rewrite E in Hrepo. discriminate. }
  rewrite (build_stops_in_first_iteration W cfg env_name (Some "push")
             entry_point skip_tests ignore_git pkg_name version
             (task, lock_file) rest Hr Hv Hok Hun Hlp (or_intror eq_refl)).
  eexists. split; [reflexivity|].
  cbn [snd iteration_trace eq_str]. rewrite Hrepo.
  destruct (path_exists W [] lock_file),
    (path_exists W (lock_copied W [] lock_file) "setup.py"), skip_tests;
    (split; [reflexivity|split; [reflexivity|]]); in_list.
Qed.

Lemma until_push_without_repository_witness :
  exists tr,
    build (sample_world false [default_group] []) (sample_config None)
          "some-env" (Some "push") "pipeline.yaml" false false [] =
    (tr, inl (CommanderStop "Done. Image pushed to repository.")) /\
    filter is_tag_or_push tr = [] /\
    filter is_report tr = [] /\
    In (docker_build "sample_project:1.2-default") tr.
Proof.
  refine (until_push_without_repository
            (sample_world false [default_group] []) (sample_config None)
            "some-env" "pipeline.yaml" false false
            "sample_project" "1.2" "default" "requirements.lock.txt" []
            _ _ _ _ _).
  - split; reflexivity.
  - reflexivity.
  - intros tr c. reflexivity.
  - intros tr H. discriminate H.
  - reflexivity.
Defined.



(** ** Packages with task patterns *)

Example multiple_lock_files_msg_text :
  multiple_lock_files_msg =
  "Multiple requirements.*.lock.txt or environment.*.lock.yml files found along with setup.py file. Please have either of the two in the project root.".
Proof. reflexivity. Qed.

Lemma package_code_rejects W cfg ignore_git pkg_name dependency_files
      lock_paths lock_file tr :
  path_exists W tr "setup.py" = true ->
  Exists (fun task_pattern => task_pattern <> "default")
         (keys dependency_files) ->
  package_code W cfg ignore_git pkg_name dependency_files lock_paths
    lock_file tr =
  (tr, inl (NotImplementedError multiple_lock_files_msg)).
Proof.
  intros Hs He. unfold package_code. rewrite bind_query, Hs.
  now rewrite (bind_fail _ _ _ _ _ (some_other_rejected _ tr He)).
Qed.

Lemma build_iteration_rejects W cfg env_name until entry_point skip_tests
      ignore_git pkg_name version dependency_files lock_paths task lock_file
      m tr :
  calls_succeed W ->
  (forall tr', path_exists W tr' "setup.py" = true) ->
  Exists (fun task_pattern => task_pattern <> "default")
         (keys dependency_files) ->
  build_iteration W cfg env_name until entry_point skip_tests ignore_git
    pkg_name version dependency_files lock_paths (task, lock_file) m tr =
  (tr ++ lock_copied W tr lock_file,
   inl (NotImplementedError multiple_lock_files_msg)).
Proof.
  intros Hok Hsetup He. unfold build_iteration. rewrite bind_query.
  assert (E : forall k : unit -> M (dict string),
             bind (when (path_exists W tr lock_file)
                        (call W (Cp lock_file))) k tr =
             k tt (tr ++ lock_copied W tr lock_file)).
  { intros k. unfold lock_copied.
    destruct (path_exists W tr lock_file); cbn [when];
      [now rewrite bind_call|now rewrite bind_ret, app_nil_r]. }
  rewrite E.
  now rewrite (bind_fail _ _ _ _ _
                 (package_code_rejects W cfg ignore_git pkg_name _ _
                    lock_file _ (Hsetup _) He)).
Qed.

(** C1, as the code has it.  In a project with [setup.py] whose dependency
    files hold a pattern other than [default], [build] raises
    [NotImplementedError] in the first iteration, having issued nothing
    but the copy of that iteration's lock file: no [dist] directory is
    removed and no source distribution is built.  With the single pattern
    [default], the packaging step removes the stale directories and builds
    the source distribution, and a run without stop token returns. *)
Theorem package_with_task_patterns_rejected (W : World) (cfg : Config)
    (env_name : string) (until : option string) (entry_point : string)
    (skip_tests ignore_git : bool) (pkg_name version : string) :
  Ready W env_name pkg_name version -> valid_repository cfg ->
  calls_succeed W ->
  (forall tr, path_exists W tr "setup.py" = true) ->
  (Exists (fun task_pattern => task_pattern <> "default")
          (keys (fst (dependencies_found W))) ->
   exists tr,
     build W cfg env_name until entry_point skip_tests ignore_git [] =
     (tr, inl (NotImplementedError multiple_lock_files_msg)) /\
     Forall (fun c => exists lock_file, c = Cp lock_file) tr)
  /\
  (forall paths,
     fst (dependencies_found W) = [("default", paths)] ->
     (forall lock_file tr,
        package_code W cfg ignore_git pkg_name (fst (dependencies_found W))
          (snd (dependencies_found W)) lock_file tr =
        (tr ++ [ Rm ["dist"; "build";
                     Path3 "src" pkg_name (fstr [pkg_name; ".egg-info"])];
                 sdist_build ],
         inr tt)) /\
     (until <> Some "build" -> until <> Some "push" ->
      exists tr,
        build W cfg env_name until entry_point skip_tests ignore_git [] =
        (tr, inr (pkg_name,
                  [("default", published cfg pkg_name version "default")]))
        /\ In sdist_build tr)).
Proof.
  intros Hr Hv Hok Hsetup. split.
  - intros He.
    rewrite (build_ready _ _ _ _ _ _ _ _ _ Hr Hv).
    destruct (snd (dependencies_found W)) as [|[task lock_file] rest] eqn:Hlp.
    { rewrite <- lock_paths_keys, Hlp in He. inversion He. }
    cbn [for_each]. rewrite bind_assoc.
    rewrite (bind_fail _ _ _ _ _
               (build_iteration_rejects W cfg env_name until entry_point
                  skip_tests ignore_git pkg_name version _ _ task lock_file
                  [] [] Hok Hsetup He)).
    cbn [app].
    eexists. split; [reflexivity|].
    unfold lock_copied. destruct (path_exists W [] lock_file);
      repeat constructor. now exists lock_file.
  - intros paths Hdf.
    assert (Hun : unambiguous W).
    { intros tr _. rewrite Hdf. repeat constructor. }
    split.
    + intros lock_file tr.
      rewrite package_code_ok; [now rewrite Hsetup|assumption|].
      intros _. rewrite Hdf. repeat constructor.
    + intros Hb Hp.
      destruct (build_completes W cfg env_name until entry_point skip_tests
                  ignore_git pkg_name version Hr Hv Hok Hun Hb Hp)
        as (tr & Hbuild & Hcalls).
      destruct (single_default_lock_path W paths Hdf) as [l Hlp].
      exists tr. rewrite Hlp in Hbuild.
      split; [exact Hbuild|].
      destruct (Hcalls ("default", l)) as (b1 & tr' & Hincl).
      { rewrite Hlp. now left. }
      apply Hincl. cbn [iteration_trace]. rewrite Hsetup.
      apply in_or_app. right. in_list.
Qed.

(** A package with the patterns [default] and [fit-*]. *)
Lemma package_with_task_patterns_rejected_witness :
  exists tr,
    build (sample_world true [default_group; fit_group] [])
          (sample_config None) "some-env" None "pipeline.yaml" false false
          [] =
    (tr, inl (NotImplementedError multiple_lock_files_msg)) /\
    Forall (fun c => exists lock_file, c = Cp lock_file) tr.
Proof.
  refine (proj1 (package_with_task_patterns_rejected
                   (sample_world true [default_group; fit_group] [])
                   (sample_config None) "some-env" None "pipeline.yaml"
                   false false "sample_project" "1.2" _ _ _ _) _).
  - split; reflexivity.
  - discriminate.
  - intros tr c. reflexivity.
  - intros tr. reflexivity.
  - right. left. discriminate.
Defined.

(** The same package: the error [build] ends in is not a
    [ConfigurationError]. *)
Lemma package_with_task_patterns_no_configuration_error :
  ~ exists msg,
      snd (build (sample_world true [default_group; fit_group] [])
                 (sample_config None) "some-env" None "pipeline.yaml"
                 false false []) =
      inl (ConfigurationError msg).
Proof. intros [msg H]. vm_compute in H. discriminate H. Qed.

(** ** The telemetry home directory *)

(** C2, on the code.  When the home directory's [stats] path does not
    exist, [cp_ploomber_home] does nothing: no archive is written and no
    placeholder directory is made.  And [build] never calls it: no trace
    of [build] holds a write to an archive. *)
Theorem ploomber_home_not_merged (W : World) (cfg : Config)
    (env_name : string) (until : option string) (entry_point : string)
    (skip_tests ignore_git : bool) (pkg_name : string) (tr : Trace) :
  path_exists W tr (expanduser W (Path2 (get_home_dir W) "stats")) = false ->
  cp_ploomber_home W pkg_name tr = (tr, inr tt) /\
  Forall (fun c => is_tar c = false)
         (fst (build W cfg env_name until entry_point skip_tests
                 ignore_git [])).
Proof.
  intros Hhome. split.
  - unfold cp_ploomber_home. now rewrite bind_query, Hhome.
  - apply build_emits; [|reflexivity].
    intros pkg version [task lock_file] c _ _ Hc.
    cbn [iteration_calls] in Hc.
    destruct (truthy_str (repository cfg)); cbn [app] in Hc;
      repeat (destruct Hc as [<-|Hc]; try reflexivity); contradiction.
Qed.

Lemma ploomber_home_not_merged_witness :
  cp_ploomber_home (sample_world false [default_group] []) "some-env" [] =
  ([], inr tt) /\
  Forall (fun c => is_tar c = false)
         (fst (build (sample_world false [default_group] [])
                     (sample_config None) "some-env" None "pipeline.yaml"
                     false false [])).
Proof.
  apply (ploomber_home_not_merged (sample_world false [default_group] [])
           (sample_config None) "some-env" None "pipeline.yaml" false false
           "some-env" []).
  reflexivity.
Defined.

(** ** How a run can fail *)

Section FailsWith.

Context {R : Trace -> Exn -> Prop}.

Lemma fails_with_ret {A} (a : A) : fails_with R (ret a).
Proof. intros tr tr' x H. discriminate H. Qed.

Lemma fails_with_raise {A} x :
  (forall tr, R tr x) -> fails_with R (@raise A x).
Proof. intros Hx tr tr' y H. injection H as <- <-. apply Hx. Qed.

Lemma fails_with_call W c :
  (forall tr, succeeds W tr c = false -> R (tr ++ [c]) (CallFailed c)) ->
  fails_with R (call W c).
Proof.
  intros Hc tr tr' x. unfold call.
  destruct (succeeds W tr c) eqn:E; [discriminate|].
  intros H. injection H as <- <-. now apply Hc.
Qed.

Lemma fails_with_bind {A B} (m : M A) (k : A -> M B) :
  fails_with R m -> (forall a, fails_with R (k a)) ->
  fails_with R (bind m k).
Proof.
  intros Hm Hk tr tr' x. unfold bind.
  destruct (m tr) as [tr1 [y | a]] eqn:E.
  - intros H. injection H as <- <-. exact (Hm _ _ _ E).
  - apply Hk.
Qed.

(** What follows a query may rely on the answer having been given. *)
Lemma fails_with_query_bind {B} (q : Trace -> bool) (k : bool -> M B) :
  (forall b, (exists tr, q tr = b) -> fails_with R (k b)) ->
  fails_with R (bind (query q) k).
Proof.
  intros Hk tr tr' x. rewrite bind_query. apply Hk. now exists tr.
Qed.

Lemma fails_with_when b m : fails_with R m -> fails_with R (when b m).
Proof. destruct b; simpl; [auto|intros _; apply fails_with_ret]. Qed.

Lemma fails_with_for_each {X S} (xs : list X) (body : X -> S -> M S) :
  (forall x s, In x xs -> fails_with R (body x s)) ->
  forall s, fails_with R (for_each xs body s).
Proof.
  induction xs as [|x xs IH]; intros Hb s; simpl.
  - apply fails_with_ret.
  - apply fails_with_bind; [apply Hb; now left|].
    intros s'. apply IH. intros y t Hy. apply Hb. now right.
Qed.

End FailsWith.

Lemma call_caused_in_loop W until dependency_files c :
  fails_with (caused_in_loop W until dependency_files) (call W c).
Proof. apply fails_with_call. intros tr H. now exists tr. Qed.

Lemma package_code_caused W cfg until ignore_git pkg_name dependency_files
      lock_paths lock_file :
  fails_with (caused_in_loop W until dependency_files)
             (package_code W cfg ignore_git pkg_name dependency_files
                lock_paths lock_file).
Proof.
  unfold package_code. apply fails_with_query_bind. intros [|] Hq.
  - apply fails_with_bind.
    + apply fails_with_for_each. intros x [] Hin. unfold reject_task_pattern.
      destruct (x =? "default")%string eqn:E; cbn [negb];
        [apply fails_with_ret|].
      apply fails_with_raise. intros tr. cbn. split; [reflexivity|].
      split; [exact Hq|]. apply Exists_exists. exists x.
      split; [exact Hin|]. now apply String.eqb_neq.
    + intros _. apply fails_with_bind; [|intros _];
        apply call_caused_in_loop.
  - repeat (apply fails_with_bind; [apply call_caused_in_loop|]; intros _).
    apply call_caused_in_loop.
Qed.

Ltac caused_step :=
  first
    [ apply fails_with_ret
    | apply call_caused_in_loop
    | apply fails_with_when
    | apply package_code_caused
    | apply fails_with_bind; [|intros ?] ].

Lemma build_iteration_caused W cfg env_name until entry_point skip_tests
      ignore_git pkg_name version dependency_files lock_paths item m :
  fails_with (caused_in_loop W until dependency_files)
             (build_iteration W cfg env_name until entry_point skip_tests
                ignore_git pkg_name version dependency_files lock_paths
                item m).
Proof.
  destruct item as [task lock_file]. unfold build_iteration.
  apply fails_with_query_bind. intros lock_exists _.
  do 6 (apply fails_with_bind; [repeat caused_step|]; intros _).
  destruct (eq_str until "build") eqn:Eb.
  { apply fails_with_raise. intros tr. left.
    destruct until as [s|]; [|discriminate Eb].
    apply String.eqb_eq in Eb. now subst s. }
  apply fails_with_bind; [repeat caused_step|]. intros _.
  destruct (eq_str until "push") eqn:Ep.
  { apply fails_with_raise. intros tr. right.
    destruct until as [s|]; [|discriminate Ep].
    apply String.eqb_eq in Ep. now subst s. }
  repeat caused_step.
Qed.

Lemma string_dec_option (o : option string) :
  {o = Some "your-repository/name"} + {o <> Some "your-repository/name"}.
Proof.
  destruct o as [r|]; [|right; discriminate].
  destruct (string_dec r "your-repository/name") as [->|Hne];
    [now left|right; congruence].
Qed.

Lemma get_dependencies_raises W x :
  get_dependencies W = inl x -> x = KeyError "lock".
Proof.
  unfold get_dependencies.
  destruct (lock_paths_of _) as [y|lp] eqn:E; [|discriminate].
  intros [= <-]. now apply lock_paths_of_raises in E.
Qed.

Lemma caused_in_loop_caused W cfg env_name until tr x :
  caused_in_loop W until (fst (dependencies_found W)) tr x ->
  caused W cfg env_name until tr x.
Proof. destruct x; cbn; tauto. Qed.

(** Every exception a run of [build] ends in has its cause. *)
Lemma build_failure_caused W cfg env_name until entry_point skip_tests
      ignore_git tr x :
  build W cfg env_name until entry_point skip_tests ignore_git [] =
  (tr, inl x) ->
  caused W cfg env_name until tr x.
Proof.
  unfold build. rewrite bind_query.
  destruct (is_file W [] (Path2 env_name "Dockerfile")) eqn:Hd; cbn [negb].
  2:{ intros H. injection H as <- <-. now cbn. }
  destruct (string_dec_option (repository cfg)) as [Hrepo|Hv].
  { unfold _validate_repository. rewrite Hrepo. intros H. lazy in H.
    injection H as <- <-. now cbn. }
  rewrite (validate_repository_ok _ Hv), bind_ret.
  destruct (find_package_name_and_version W) as [[pkg_name version]|] eqn:Hf.
  2:{ intros H. injection H as <- <-. now cbn. }
  destruct (check_lock_files_exist W) eqn:Hl; cbn [negb].
  2:{ intros H. injection H as <- <-. now cbn. }
  destruct (get_dependencies W) as [y|[df lp]] eqn:Egd.
  { intros H. injection H as <- <-.
    pose proof (get_dependencies_raises W _ Egd) as ->. now cbn. }
  assert (Ef : dependencies_found W = (df, lp))
    by (unfold dependencies_found; now rewrite Egd).
  intros H. apply caused_in_loop_caused. rewrite Ef. cbn [fst]. revert H.
  apply fails_with_bind.
  - apply fails_with_for_each. intros item m _.
    apply build_iteration_caused.
  - intros m. apply fails_with_bind; [apply call_caused_in_loop|].
    intros _. apply fails_with_ret.
Qed.

(** X1.  The Dockerfile check comes first: without
    [{env_name}/Dockerfile], [build] raises [MissingDockerfileError] for
    that environment and issues nothing, whatever the configuration holds;
    and [build] ends in that error in no other case. *)
Theorem missing_dockerfile_first (W : World) (cfg : Config)
    (env_name : string) (until : option string) (entry_point : string)
    (skip_tests ignore_git : bool) :
  (is_file W [] (Path2 env_name "Dockerfile") = false ->
   build W cfg env_name until entry_point skip_tests ignore_git [] =
   ([], inl (MissingDockerfileError env_name)))
  /\
  (forall tr name,
     build W cfg env_name until entry_point skip_tests ignore_git [] =
     (tr, inl (MissingDockerfileError name)) ->
     name = env_name /\
     is_file W [] (Path2 env_name "Dockerfile") = false /\ tr = []).
Proof.
  split.
  - intros Hd. unfold build. now rewrite bind_query, Hd.
  - intros tr name H. exact (build_failure_caused _ _ _ _ _ _ _ _ _ H).
Qed.

(** An environment directory without Dockerfile, and the placeholder
    repository: the Dockerfile is what the error is about. *)
Lemma missing_dockerfile_first_witness :
  build (sample_world false [default_group] [])
        (sample_config (Some "your-repository/name"))
        "other-env" None "pipeline.yaml" false false [] =
  ([], inl (MissingDockerfileError "other-env")).
Proof.
  apply (proj1 (missing_dockerfile_first
                  (sample_world false [default_group] [])
                  (sample_config (Some "your-repository/name"))
                  "other-env" None "pipeline.yaml" false false)).
  reflexivity.
Defined.

(** X2.  The checks that come before the loop issue nothing: when [build]
    ends in a [ConfigurationError], in the error of
    [find_package_name_and_version] or in that of [check_lock_files_exist],
    no call has been made, and the error has its one cause; the loop raises
    none of them. *)
Theorem early_errors_issue_nothing (W : World) (cfg : Config)
    (env_name : string) (until : option string) (entry_point : string)
    (skip_tests ignore_git : bool) (tr : Trace) (x : Exn) :
  build W cfg env_name until entry_point skip_tests ignore_git [] =
  (tr, inl x) ->
  (forall msg, x = ConfigurationError msg ->
     msg = invalid_repository_msg /\
     repository cfg = Some "your-repository/name" /\ tr = [])
  /\
  (x = PackageNotFound ->
     find_package_name_and_version W = None /\ tr = [])
  /\
  (x = MissingLockFiles ->
     check_lock_files_exist W = false /\ tr = []).
Proof.
  intros H. apply build_failure_caused in H.
  repeat split; intros; subst x; cbn in H; tauto.
Qed.

Lemma early_errors_issue_nothing_witness :
  invalid_repository_msg = invalid_repository_msg /\
  repository (sample_config (Some "your-repository/name")) =
  Some "your-repository/name" /\
  @nil Call = [].
Proof.
  apply (proj1 (early_errors_issue_nothing
                  (sample_world false [default_group] [])
                  (sample_config (Some "your-repository/name"))
                  "some-env" None "pipeline.yaml" false false
                  [] (ConfigurationError invalid_repository_msg) eq_refl)
           invalid_repository_msg eq_refl).
Defined.



(** X4.  [NotImplementedError] is raised for one reason only: [setup.py]
    exists and some pattern of the dependency files is not [default].  A
    project without [setup.py] never gets it, however many patterns it
    has. *)
Theorem not_implemented_only_for_packages (W : World) (cfg : Config)
    (env_name : string) (until : option string) (entry_point : string)
    (skip_tests ignore_git : bool) :
  (forall tr msg,
     build W cfg env_name until entry_point skip_tests ignore_git [] =
     (tr, inl (NotImplementedError msg)) ->
     msg = multiple_lock_files_msg /\
     (exists tr0, path_exists W tr0 "setup.py" = true) /\
     Exists (fun task_pattern => task_pattern <> "default")
            (keys (fst (dependencies_found W))))
  /\
  ((forall tr0, path_exists W tr0 "setup.py" = false) ->
   forall msg,
     snd (build W cfg env_name until entry_point skip_tests ignore_git [])
     <> inl (NotImplementedError msg)).
Proof.
  split.
  - intros tr msg H. exact (build_failure_caused _ _ _ _ _ _ _ _ _ H).
  - intros Hno msg H.
    destruct (build W cfg env_name until entry_point skip_tests ignore_git
                []) as [tr out] eqn:E.
    cbn [snd] in H. subst out.
    destruct (build_failure_caused _ _ _ _ _ _ _ _ _ E)
      as (_ & [tr0 Hs] & _).
    rewrite Hno in Hs. discriminate Hs.
Qed.

Lemma not_implemented_only_for_packages_witness :
  snd (build (sample_world false [default_group; fit_group] [])
             (sample_config None) "some-env" None "pipeline.yaml"
             false false []) <>
  inl (NotImplementedError multiple_lock_files_msg).
Proof.
  apply (proj2 (not_implemented_only_for_packages
                  (sample_world false [default_group; fit_group] [])
                  (sample_config None) "some-env" None "pipeline.yaml"
                  false false)).
  intros tr0. reflexivity.
Defined.

(** X5.  The pipeline-halt signal always matches the stop token: a run
    that ends in [CommanderStop] was asked to stop at ['build'] and
    carries the build message, or was asked to stop at ['push'] and carries
    the push message. *)
Theorem stop_signal_matches_token (W : World) (cfg : Config)
    (env_name : string) (until : option string) (entry_point : string)
    (skip_tests ignore_git : bool) (tr : Trace) (msg : string) :
  build W cfg env_name until entry_point skip_tests ignore_git [] =
  (tr, inl (CommanderStop msg)) ->
  (until = Some "build" /\ msg = done_build_msg) \/
  (until = Some "push" /\ msg = done_push_msg).
Proof. intros H. exact (build_failure_caused _ _ _ _ _ _ _ _ _ H). Qed.

Lemma stop_signal_matches_token_witness :
  (Some "push" = Some "build" /\ done_push_msg = done_build_msg) \/
  (Some "push" = Some "push" /\ done_push_msg = done_push_msg).
Proof.
  apply (stop_signal_matches_token
           (sample_world false [default_group] [])
           (sample_config (Some "repo.example.com/project:1.2"))
           "some-env" (Some "push") "pipeline.yaml" false false
           (fst (build (sample_world false [default_group] [])
                   (sample_config (Some "repo.example.com/project:1.2"))
                   "some-env" (Some "push") "pipeline.yaml" false false
                   []))
           done_push_msg).
  reflexivity.
Defined.

(** ** The order of the calls *)

(** A view of the trace that does not depend on what the file system
    answers is, on a run to the end of the loop, the views of the
    iterations one after the other. *)
Lemma loop_filter W cfg env_name until entry_point skip_tests ignore_git
      pkg_name version dependency_files lock_paths
      (f : Call -> bool) (g : string * string -> list Call) :
  calls_succeed W ->
  (forall tr', path_exists W tr' "setup.py" = true ->
     Forall (fun task_pattern => task_pattern = "default")
            (keys dependency_files)) ->
  until <> Some "build" -> until <> Some "push" ->
  (forall lock_exists setup_py item,
     filter f (iteration_trace lock_exists setup_py cfg env_name until
                 entry_point skip_tests ignore_git pkg_name version
                 lock_paths item) = g item) ->
  forall todo m tr,
  exists ext,
    for_each todo
      (build_iteration W cfg env_name until entry_point skip_tests ignore_git
         pkg_name version dependency_files lock_paths) m tr =
    (tr ++ ext, inr (record_all cfg pkg_name version todo m)) /\
    filter f ext = flat_map g todo.
Proof.
  intros Hok Hdef Hb Hp Hg todo.
  induction todo as [|item todo IH]; intros m tr.
  - exists []. split; [now rewrite app_nil_r|reflexivity].
  - cbn [for_each].
    pose proof (build_iteration_run W cfg env_name until entry_point
                  skip_tests ignore_git pkg_name version dependency_files
                  lock_paths item m tr Hok Hdef) as Hrun.
    unfold iteration_outcome in Hrun.
    pose proof (Hg (path_exists W tr (snd item))
                   (path_exists W (tr ++ lock_copied W tr (snd item))
                      "setup.py") item) as Hgi.
    destruct item as [task lock_file].
    rewrite (eq_str_false _ _ Hb), (eq_str_false _ _ Hp) in Hrun.
    rewrite (bind_ok _ _ _ _ _ Hrun).
    match type of Hrun with _ = (tr ++ ?it, inr ?m1) =>
      destruct (IH m1 (tr ++ it)) as (ext & Hloop & Hext);
      exists (it ++ ext)
    end.
    split.
    + rewrite Hloop. now rewrite <- app_assoc.
    + rewrite filter_app, Hext, Hgi. reflexivity.
Qed.

Lemma build_filter W cfg env_name until entry_point skip_tests ignore_git
      pkg_name version (f : Call -> bool)
      (g : string * string -> list Call) :
  Ready W env_name pkg_name version -> valid_repository cfg ->
  calls_succeed W -> unambiguous W ->
  until <> Some "build" -> until <> Some "push" ->
  (forall lock_exists setup_py item,
     filter f (iteration_trace lock_exists setup_py cfg env_name until
                 entry_point skip_tests ignore_git pkg_name version
                 (snd (dependencies_found W)) item) = g item) ->
  (forall fmt m, f (InfoFormat fmt m) = false) ->
  filter f (fst (build W cfg env_name until entry_point skip_tests
                   ignore_git [])) =
  flat_map g (snd (dependencies_found W)).
Proof.
  intros Hr Hv Hok Hun Hb Hp Hg Hinfo.
  rewrite (build_ready _ _ _ _ _ _ _ _ _ Hr Hv).
  destruct (loop_filter W cfg env_name until entry_point skip_tests
              ignore_git pkg_name version (fst (dependencies_found W))
              (snd (dependencies_found W)) f g Hok Hun Hb Hp Hg
              (snd (dependencies_found W)) [] [])
    as (ext & Hloop & Hext).
  cbn [app] in Hloop. rewrite (bind_ok _ _ _ _ _ Hloop).
  rewrite bind_call by assumption. unfold ret. cbn [fst].
  rewrite filter_app, Hext. cbn [filter]. rewrite Hinfo.
  apply app_nil_r.
Qed.

(** X6.  On a run without stop token on which nothing raises, the
    container commands are, pattern after pattern in the order of
    [lock_paths]: the build, the two tests unless [skip_tests], and the
    tag and push when a repository is configured; nothing else goes to
    docker. *)
Theorem complete_run_docker_commands (W : World) (cfg : Config)
    (env_name : string) (until : option string) (entry_point : string)
    (skip_tests ignore_git : bool) (pkg_name version : string) :
  Ready W env_name pkg_name version -> valid_repository cfg ->
  calls_succeed W -> unambiguous W ->
  until <> Some "build" -> until <> Some "push" ->
  filter is_docker
    (fst (build W cfg env_name until entry_point skip_tests ignore_git []))
  = flat_map (docker_commands cfg entry_point skip_tests pkg_name version)
             (snd (dependencies_found W)).
Proof.
  intros Hr Hv Hok Hun Hb Hp.
  apply (build_filter W cfg env_name until entry_point skip_tests ignore_git
           pkg_name version is_docker _ Hr Hv Hok Hun Hb Hp);
    [|reflexivity].
  intros lock_exists setup_py [task lock_file].
  unfold docker_commands, published. cbn [iteration_trace fst].
  rewrite (eq_str_false _ _ Hb), (eq_str_false _ _ Hp).
  destruct lock_exists, setup_py, skip_tests,
    (truthy_str (repository cfg)); reflexivity.
Qed.

(** Two patterns, tests skipped, a repository with its own tag. *)
Lemma complete_run_docker_commands_witness :
  filter is_docker
    (fst (build (sample_world false [default_group; fit_group] [])
            (sample_config (Some "repo.example.com/project:1.2"))
            "some-env" None "pipeline.yaml" true false [])) =
  [ docker_build "sample_project:1.2-default";
    docker_tag "sample_project:1.2-default" "repo.example.com/project:1.2";
    docker_push "repo.example.com/project:1.2";
    docker_build "sample_project:1.2-fit-ploomber";
    docker_tag "sample_project:1.2-fit-ploomber"
               "repo.example.com/project:1.2";
    docker_push "repo.example.com/project:1.2" ].
Proof.
  apply (complete_run_docker_commands
           (sample_world false [default_group; fit_group] [])
           (sample_config (Some "repo.example.com/project:1.2"))
           "some-env" None "pipeline.yaml" true false
           "sample_project" "1.2").
  - split; reflexivity.
  - discriminate.
  - intros tr c. reflexivity.
  - intros tr H. discriminate H.
  - discriminate.
  - discriminate.
Defined.

(** X7.  A stop token ends the run in the first iteration, whatever
    [skip_tests] and the repository are: with ['build'] the container
    commands are the build and, unless skipped, the two tests; with
    ['push'] they are all commands of the first pattern, tag and push
    included when a repository is configured.  No later pattern is
    built. *)
Theorem stopped_run_docker_commands (W : World) (cfg : Config)
    (env_name entry_point : string) (skip_tests ignore_git : bool)
    (pkg_name version task lock_file : string) (rest : dict string) :
  Ready W env_name pkg_name version -> valid_repository cfg ->
  calls_succeed W -> unambiguous W ->
  snd (dependencies_found W) = (task, lock_file) :: rest ->
  let image_local := image_local_of pkg_name version task in
  (exists tr,
     build W cfg env_name (Some "build") entry_point skip_tests ignore_git
       [] = (tr, inl (CommanderStop done_build_msg)) /\
     filter is_docker tr =
       docker_build image_local ::
       (if skip_tests then []
        else [ docker_test_status image_local entry_point;
               docker_test_client image_local entry_point ]))
  /\
  (exists tr,
     build W cfg env_name (Some "push") entry_point skip_tests ignore_git
       [] = (tr, inl (CommanderStop done_push_msg)) /\
     filter is_docker tr =
       docker_commands cfg entry_point skip_tests pkg_name version
         (task, lock_file)).
Proof.
  intros Hr Hv Hok Hun Hlp image_local. split.
  - rewrite (build_stops_in_first_iteration W cfg env_name (Some "build")
               entry_point skip_tests ignore_git pkg_name version
               (task, lock_file) rest Hr Hv Hok Hun Hlp (or_introl eq_refl)).
    eexists. split; [reflexivity|].
    cbn [snd iteration_trace eq_str].
    destruct (path_exists W [] lock_file),
      (path_exists W (lock_copied W [] lock_file) "setup.py"), skip_tests;
      reflexivity.
  - rewrite (build_stops_in_first_iteration W cfg env_name (Some "push")
               entry_point skip_tests ignore_git pkg_name version
               (task, lock_file) rest Hr Hv Hok Hun Hlp (or_intror eq_refl)).
    eexists. split; [reflexivity|].
    unfold docker_commands, published. cbn [fst snd iteration_trace eq_str].
    destruct (path_exists W [] lock_file),
      (path_exists W (lock_copied W [] lock_file) "setup.py"), skip_tests,
      (truthy_str (repository cfg)); reflexivity.
Qed.

(** ['push'] with a repository that has its own tag, on two patterns. *)
Lemma stopped_run_docker_commands_witness :
  exists tr,
    build (sample_world false [default_group; fit_group] [])
          (sample_config (Some "repo.example.com/project:1.2"))
          "some-env" (Some "push") "pipeline.yaml" false false [] =
    (tr, inl (CommanderStop done_push_msg)) /\
    filter is_docker tr =
    [ docker_build "sample_project:1.2-default";
      docker_test_status "sample_project:1.2-default" "pipeline.yaml";
      docker_test_client "sample_project:1.2-default" "pipeline.yaml";
      docker_tag "sample_project:1.2-default" "repo.example.com/project:1.2";
      docker_push "repo.example.com/project:1.2" ].
Proof.
  refine (proj2 (stopped_run_docker_commands
                   (sample_world false [default_group; fit_group] [])
                   (sample_config (Some "repo.example.com/project:1.2"))
                   "some-env" "pipeline.yaml" false false
                   "sample_project" "1.2" "default" "requirements.lock.txt"
                   [("fit-*", "requirements.fit-*.lock.txt")]
                   _ _ _ _ _)).
  - split; reflexivity.
  - discriminate.
  - intros tr c. reflexivity.
  - intros tr H. discriminate H.
  - reflexivity.
Defined.

(** X8.  The working directory: a run to the end enters the environment
    directory and returns to the project root once per pattern, so it ends
    where it started; a run halted by a stop token has entered the
    environment directory and never leaves it. *)
Theorem working_directory_discipline (W : World) (cfg : Config)
    (env_name : string) (until : option string) (entry_point : string)
    (skip_tests ignore_git : bool) (pkg_name version : string) :
  Ready W env_name pkg_name version -> valid_repository cfg ->
  calls_succeed W -> unambiguous W ->
  (until <> Some "build" -> until <> Some "push" ->
   filter is_cd
     (fst (build W cfg env_name until entry_point skip_tests ignore_git []))
   = flat_map (fun _ => [Cd env_name; Cd ".."]) (snd (dependencies_found W)))
  /\
  (until = Some "build" \/ until = Some "push" ->
   snd (dependencies_found W) <> [] ->
   filter is_cd
     (fst (build W cfg env_name until entry_point skip_tests ignore_git []))
   = [Cd env_name]).
Proof.
  intros Hr Hv Hok Hun. split.
  - intros Hb Hp.
    apply (build_filter W cfg env_name until entry_point skip_tests
             ignore_git pkg_name version is_cd _ Hr Hv Hok Hun Hb Hp);
      [|reflexivity].
    intros lock_exists setup_py [task lock_file].
    cbn [iteration_trace].
    rewrite (eq_str_false _ _ Hb), (eq_str_false _ _ Hp).
    destruct lock_exists, setup_py, skip_tests,
      (truthy_str (repository cfg)); reflexivity.
  - intros Huntil Hne.
    destruct (snd (dependencies_found W)) as [|[task lock_file] rest] eqn:Hlp;
      [contradiction|].
    rewrite (build_stops_in_first_iteration W cfg env_name until
               entry_point skip_tests ignore_git pkg_name version
               (task, lock_file) rest Hr Hv Hok Hun Hlp Huntil).
    cbn [fst snd iteration_trace].
    destruct Huntil as [-> | ->]; cbn [eq_str String.eqb Ascii.eqb Bool.eqb];
      destruct (path_exists W [] lock_file),
        (path_exists W (lock_copied W [] lock_file) "setup.py"), skip_tests,
        (truthy_str (repository cfg)); reflexivity.
Qed.

Lemma working_directory_discipline_witness :
  filter is_cd
    (fst (build (sample_world false [default_group; fit_group] [])
            (sample_config None) "some-env" None "pipeline.yaml"
            false false [])) =
  [Cd "some-env"; Cd ".."; Cd "some-env"; Cd ".."].
Proof.
  refine (proj1 (working_directory_discipline
                   (sample_world false [default_group; fit_group] [])
                   (sample_config None) "some-env" None "pipeline.yaml"
                   false false "sample_project" "1.2" _ _ _ _) _ _).
  - split; reflexivity.
  - discriminate.
  - intros tr c. reflexivity.
  - intros tr H. discriminate H.
  - discriminate.
  - discriminate.
Defined.

(** ** The returned mapping *)

Lemma set_fresh {V} (d : dict V) k v :
  ~ In k (keys d) -> set d k v = d ++ [(k, v)].
Proof.
  induction d as [|[k' v'] d IH]; intros Hn; [reflexivity|].
  cbn [set]. destruct (k' =? k)%string eqn:E.
  - apply String.eqb_eq in E. exfalso. apply Hn. now left.
  - cbn [app]. rewrite IH; [reflexivity|]. intros Hin. apply Hn. now right.
Qed.

Lemma record_all_fresh cfg pkg_name version todo : forall m,
  NoDup (keys todo) ->
  (forall k, In k (keys todo) -> ~ In k (keys m)) ->
  record_all cfg pkg_name version todo m =
  m ++ map (fun item => (fst item, published cfg pkg_name version (fst item)))
           todo.
Proof.
  induction todo as [|[k lock_file] todo IH]; intros m Hnd Hfresh.
  - cbn. now rewrite app_nil_r.
  - cbn [record_all fold_left fst].
    fold (record_all cfg pkg_name version todo
            (set m k (published cfg pkg_name version k))).
    cbn [keys map fst] in Hnd. inversion Hnd as [|? ? Hk Hnd']. subst.
    rewrite set_fresh by (apply Hfresh; now left).
    rewrite IH.
    + cbn [map fst]. now rewrite <- app_assoc.
    + exact Hnd'.
    + intros k' Hin. unfold keys. rewrite map_app, in_app_iff.
      intros [Hm | [<- | []]].
      * apply (Hfresh k'); [now right|exact Hm].
      * exact (Hk Hin).
Qed.

Lemma map_by_key {V} (f : string -> string) (d : dict V) :
  map (fun entry => (fst entry, f (fst entry))) d =
  map (fun k => (k, f k)) (keys d).
Proof. unfold keys. now rewrite map_map. Qed.

(** X9.  The mapping [build] returns lists the patterns in the order of
    discovery, each once, with the reference its image was published
    under; the patterns are the keys of a dict, hence distinct. *)
Theorem returned_mapping_in_order (W : World) (cfg : Config)
    (env_name : string) (until : option string) (entry_point : string)
    (skip_tests ignore_git : bool) (pkg_name version : string) :
  Ready W env_name pkg_name version -> valid_repository cfg ->
  calls_succeed W -> unambiguous W ->
  until <> Some "build" -> until <> Some "push" ->
  NoDup (keys (fst (dependencies_found W))) ->
  snd (build W cfg env_name until entry_point skip_tests ignore_git []) =
  inr (pkg_name,
       map (fun entry =>
              (fst entry, published cfg pkg_name version (fst entry)))
           (fst (dependencies_found W))).
Proof.
  intros Hr Hv Hok Hun Hb Hp Hnd.
  destruct (build_completes W cfg env_name until entry_point skip_tests
              ignore_git pkg_name version Hr Hv Hok Hun Hb Hp)
    as (tr & Hbuild & _).
  rewrite Hbuild. cbn [snd]. do 2 f_equal.
  rewrite record_all_fresh.
  - cbn [app].
    rewrite (map_by_key (published cfg pkg_name version)
               (snd (dependencies_found W))).
    rewrite (map_by_key (published cfg pkg_name version)
               (fst (dependencies_found W))).
    now rewrite lock_paths_keys.
  - now rewrite lock_paths_keys.
  - intros k _ [].
Qed.

Lemma returned_mapping_in_order_witness :
  snd (build (sample_world false [fit_group; default_group] [])
             (sample_config None) "some-env" None "pipeline.yaml"
             true false []) =
  inr ("sample_project",
       [ ("fit-*", "sample_project:1.2-fit-ploomber");
         ("default", "sample_project:1.2-default") ]).
Proof.
  apply (returned_mapping_in_order
           (sample_world false [fit_group; default_group] [])
           (sample_config None) "some-env" None "pipeline.yaml" true false
           "sample_project" "1.2").
  - split; reflexivity.
  - discriminate.
  - intros tr c. reflexivity.
  - intros tr H. discriminate H.
  - discriminate.
  - discriminate.
  - repeat constructor; simpl; intuition discriminate.
Defined.

(** X10.  When neither requirements nor environment files are found, the
    loop has nothing to do: [build] reports and returns the empty mapping.
    A stop token changes nothing to that, as the halt signal is raised
    inside the loop only. *)
Theorem no_dependency_files_no_image (W : World) (cfg : Config)
    (env_name : string) (until : option string) (entry_point : string)
    (skip_tests ignore_git : bool) (pkg_name version : string) :
  Ready W env_name pkg_name version -> valid_repository cfg ->
  get_task_dependency_files W "requirements" "txt" = [] ->
  get_task_dependency_files W "environment" "yml" = [] ->
  succeeds W [] (InfoFormat "Images generated : {}" []) = true ->
  build W cfg env_name until entry_point skip_tests ignore_git [] =
  ([InfoFormat "Images generated : {}" []], inr (pkg_name, [])).
Proof.
  intros Hr Hv Hreq Henv Hok.
  rewrite (build_ready _ _ _ _ _ _ _ _ _ Hr Hv).
  unfold dependencies_found, get_dependencies. rewrite Hreq, Henv.
  cbn [lock_paths_of items snd for_each].
  rewrite bind_ret. unfold bind, call. now rewrite Hok.
Qed.

Lemma no_dependency_files_no_image_witness :
  build (sample_world false [] []) (sample_config None) "some-env"
        (Some "build") "pipeline.yaml" false false [] =
  ([InfoFormat "Images generated : {}" []], inr ("sample_project", [])).
Proof.
  apply (no_dependency_files_no_image (sample_world false [] [])
           (sample_config None) "some-env" (Some "build") "pipeline.yaml"
           false false "sample_project" "1.2").
  - split; reflexivity.
  - discriminate.
  - reflexivity.
  - reflexivity.
  - reflexivity.
Defined.

(** ** More on the normalized pattern *)

(** X11.  [modify_wildcard] is idempotent, and it is not injective: a
    pattern with [*] and the same pattern with [ploomber] in its place get
    the same local tag. *)
Theorem modify_wildcard_collides (pkg_name version before after : string) :
  (forall entity,
     modify_wildcard (modify_wildcard entity) = modify_wildcard entity)
  /\
  image_local_of pkg_name version (before ++ "*" ++ after) =
  image_local_of pkg_name version (before ++ "ploomber" ++ after)
  /\
  (before ++ "*" ++ after)%string <> (before ++ "ploomber" ++ after)%string.
Proof.
  split; [|split].
  - intros entity. unfold modify_wildcard at 1.
    apply replace_absent, modify_wildcard_no_star.
  - rewrite !image_local_of_eq. unfold modify_wildcard.
    now rewrite !replace_app.
  - induction before as [|c before IH]; cbn; [discriminate|].
    intros H. injection H as H. exact (IH H).
Qed.

(** ** More on the packaging step *)

(** X12.  Every [source.copy] call of a run of [build] renames one file,
    the lock file of its own entry, to [requirements.lock.txt] or
    [environment.lock.yml], and the pipeline does not exclude that file:
    it is in the exclude list only if the configuration put it there.
    With a single entry in [lock_paths] the configured excludes are passed
    on as they are. *)
Theorem own_lock_file_kept (W : World) (cfg : Config)
    (env_name : string) (until : option string) (entry_point : string)
    (skip_tests ignore_git : bool) :
  Forall
    (fun c =>
       forall src dst incl excl ignore_git' rename_files,
         c = SourceCopy src dst incl excl ignore_git' rename_files ->
         exists task lock_file canonical,
           In (task, lock_file) (snd (dependencies_found W)) /\
           rename_files = [(lock_file, canonical)] /\
           (canonical = "requirements.lock.txt" \/
            canonical = "environment.lock.yml") /\
           (forall l, excl = Some l -> In lock_file l ->
                      exists ex, exclude cfg = Some ex /\ In lock_file ex) /\
           (snd (dependencies_found W) = [(task, lock_file)] ->
            excl = exclude cfg))
    (fst (build W cfg env_name until entry_point skip_tests ignore_git [])).
Proof.
  apply build_emits; [|intros m; discriminate].
  intros pkg_name version [task lock_file] c Hfind Hin Hc.
  cbn [iteration_calls] in Hc.
  intros src dst incl excl ig rename_files Ec.
  remember (snd (dependencies_found W)) as lp eqn:Elp.
  assert (Hcopy : c = SourceCopy "." (Path2 "dist" pkg_name) (include cfg)
                        (exclude_for cfg (other_lock_files lp lock_file))
                        ignore_git (rename_files_for lock_file)).
  { destruct (truthy_str (repository cfg)); cbn [app] in Hc;
      repeat (destruct Hc as [<-|Hc]; try discriminate);
      try contradiction; reflexivity. }
  rewrite Hcopy in Ec. injection Ec as <- <- <- <- <- <-.
  exists task, lock_file.
  exists (if str_in "requirements" lock_file
          then "requirements.lock.txt" else "environment.lock.yml").
  split; [exact Hin|]. split; [|split; [|split]].
  - unfold rename_files_for. now destruct (str_in "requirements" lock_file).
  - destruct (str_in "requirements" lock_file); [now left|now right].
  - intros l El Hl.
    destruct (proj1 (exclude_for_spec cfg (other_lock_files lp lock_file)
                       lock_file)
                (ex_intro _ l (conj El Hl))) as [Ho|Hc'].
    + apply other_lock_files_spec in Ho. now destruct Ho.
    + exact Hc'.
  - intros Hlp. rewrite Hlp. unfold other_lock_files, values.
    cbn [map snd filter]. rewrite String.eqb_refl. cbn [negb].
    unfold exclude_for. now rewrite !andb_false_r.
Qed.

(** ** More on [cp_ploomber_home] *)

(** X13.  When the home directory's [stats] path exists,
    [cp_ploomber_home] opens [dist/{pkg_name}.tar.gz] for writing, adds the
    directory as [ploomber/stats] and closes the archive; if opening
    raises nothing is added, and if adding raises the archive is not
    closed.  The archive it opens for writing is the one [build] has the
    project compressed into: every [source.compress_dir] call of a run of
    [build] for that package writes [dist/{pkg_name}] to that path, and a
    run to the end of a project without [setup.py] makes the call. *)
Theorem cp_ploomber_home_writes (W : World) (pkg_name : string) (tr : Trace) :
  path_exists W tr (home_path_of W) = true ->
  let opening := TarOpen (home_archive pkg_name) "w:gz" in
  let adding := TarAdd (home_path_of W) "ploomber/stats" in
  (succeeds W tr opening = false ->
   cp_ploomber_home W pkg_name tr =
   (tr ++ [opening], inl (CallFailed opening)))
  /\
  (succeeds W tr opening = true ->
   succeeds W (tr ++ [opening]) adding = false ->
   cp_ploomber_home W pkg_name tr =
   (tr ++ [opening; adding], inl (CallFailed adding)))
  /\
  (succeeds W tr opening = true ->
   succeeds W (tr ++ [opening]) adding = true ->
   succeeds W (tr ++ [opening; adding]) TarClose = true ->
   cp_ploomber_home W pkg_name tr =
   (tr ++ [opening; adding; TarClose], inr tt))
  /\
  (forall cfg env_name until entry_point skip_tests ignore_git version,
     find_package_name_and_version W = Some (pkg_name, version) ->
     Forall (fun c => forall src dst,
                 c = CompressDir src dst ->
                 src = Path2 "dist" pkg_name /\ dst = home_archive pkg_name)
            (fst (build W cfg env_name until entry_point skip_tests
                    ignore_git []))
     /\
     (Ready W env_name pkg_name version -> valid_repository cfg ->
      calls_succeed W ->
      (forall tr0, path_exists W tr0 "setup.py" = false) ->
      until <> Some "build" -> until <> Some "push" ->
      snd (dependencies_found W) <> [] ->
      In (CompressDir (Path2 "dist" pkg_name) (home_archive pkg_name))
         (fst (build W cfg env_name until entry_point skip_tests
                 ignore_git [])))).
Proof.
  intros Hhome opening adding.
  assert (E : cp_ploomber_home W pkg_name tr =
              (call W opening ;; call W adding ;; call W TarClose) tr).
  { unfold cp_ploomber_home. rewrite bind_query.
    fold (home_path_of W). now rewrite Hhome. }
  rewrite E. unfold bind, call. split; [|split; [|split]].
  - intros H1. now rewrite H1.
  - intros H1 H2. rewrite H1, H2. now rewrite <- app_assoc.
  - intros H1 H2 H3. rewrite H1, H2.
    replace ((tr ++ [opening]) ++ [adding]) with (tr ++ [opening; adding])
      by now rewrite <- app_assoc.
    rewrite H3. now rewrite <- app_assoc.
  - intros cfg env_name until entry_point skip_tests ignore_git version
           Hfind.
    split.
    + apply build_emits; [|intros m src dst Ec; discriminate Ec].
      intros pkg_name' version' [task lock_file] c Hfind' _ Hc src dst Ec.
      rewrite Hfind in Hfind'. injection Hfind' as <- <-.
      cbn [iteration_calls] in Hc.
      destruct (truthy_str (repository cfg)); cbn [app] in Hc;
        repeat (destruct Hc as [<-|Hc]; try discriminate Ec);
        try contradiction;
        injection Ec as <- <-; now split.
    + intros Hr Hv Hok Hno Hb Hp Hne.
      assert (Hun : unambiguous W).
      { intros tr0 H. rewrite Hno in H. discriminate H. }
      destruct (build_completes W cfg env_name until entry_point skip_tests
                  ignore_git pkg_name version Hr Hv Hok Hun Hb Hp)
        as (tr1 & Hbuild & Hcalls).
      rewrite Hbuild. cbn [fst].
      destruct (snd (dependencies_found W)) as [|item rest] eqn:Hlp;
        [contradiction|].
      destruct (Hcalls item (or_introl eq_refl)) as (b1 & tr' & Hincl).
      destruct item as [task lock_file].
      apply Hincl. cbn [iteration_trace]. rewrite Hno.
      apply in_or_app. right. in_list.
Qed.

(** The home directory exists and [archive.add] raises: the archive stays
    open. *)
Lemma cp_ploomber_home_writes_witness :
  cp_ploomber_home
    (failing_world true
       (fun c => match c with TarAdd _ _ => false | _ => true end)
       [default_group])
    "sample_project" [] =
  ([ TarOpen "dist/sample_project.tar.gz" "w:gz";
     TarAdd "home-dir/stats" "ploomber/stats" ],
   inl (CallFailed (TarAdd "home-dir/stats" "ploomber/stats"))).
Proof.
  refine (proj1 (proj2 (cp_ploomber_home_writes
                          (failing_world true
                             (fun c => match c with
                                       | TarAdd _ _ => false
                                       | _ => true
                                       end)
                             [default_group])
                          "sample_project" [] _)) _ _);
    reflexivity.
Defined.

(** ** What a run never issues *)

Lemma package_code_emits_possible P W cfg ignore_git pkg_name
      dependency_files lock_paths lock_file :
  (forall c, In c (packaging_calls true cfg ignore_git pkg_name lock_paths
                     lock_file ++
                   packaging_calls false cfg ignore_git pkg_name lock_paths
                     lock_file) -> P c) ->
  emits P (package_code W cfg ignore_git pkg_name dependency_files
             lock_paths lock_file).
Proof.
  intros H. unfold package_code.
  apply emits_bind; [apply emits_query|]. intros [|].
  - apply emits_bind.
    + apply emits_for_each. intros x [] _. unfold reject_task_pattern.
      destruct (negb (x =? "default")%string);
        [apply emits_raise|apply emits_ret].
    + intros _. repeat emits_step H.
  - repeat emits_step H.
Qed.

Lemma build_iteration_emits_possible P W cfg env_name until entry_point
      skip_tests ignore_git pkg_name version dependency_files lock_paths
      item m :
  (forall c, In c (possible_calls cfg env_name until entry_point skip_tests
                     ignore_git pkg_name version lock_paths item) -> P c) ->
  emits P (build_iteration W cfg env_name until entry_point skip_tests
             ignore_git pkg_name version dependency_files lock_paths item m).
Proof.
  destruct item as [task lock_file]. intros H.
  unfold possible_calls in H. cbn [iteration_trace] in H.
  unfold build_iteration.
  apply emits_bind; [apply emits_query|]. intros lock_exists.
  apply emits_bind; [repeat emits_step H|]. intros _.
  apply emits_bind.
  { apply package_code_emits_possible. intros c Hc. apply H.
    apply in_app_or in Hc. apply in_or_app.
    destruct Hc as [Hc|Hc]; [left|right];
      apply in_or_app; right; apply in_or_app; now left. }
  intros _.
  destruct skip_tests, (eq_str until "build"), (eq_str until "push"),
    (truthy_str (repository cfg));
    cbn [negb when];
    repeat first [ apply emits_raise | emits_step H ].
Qed.

(** Every call in a trace of [build] is one the iterations can issue under
    the given stop token and [skip_tests], or the closing report. *)
Lemma build_emits_possible (P : Call -> Prop) W cfg env_name until
      entry_point skip_tests ignore_git :
  (forall pkg_name version item c,
      find_package_name_and_version W = Some (pkg_name, version) ->
      In item (snd (dependencies_found W)) ->
      In c (possible_calls cfg env_name until entry_point skip_tests
              ignore_git pkg_name version (snd (dependencies_found W)) item) ->
      P c) ->
  (forall m, P (InfoFormat "Images generated : {}" m)) ->
  Forall P (fst (build W cfg env_name until entry_point skip_tests
                   ignore_git [])).
Proof.
  intros Hit Hinfo.
  assert (E : emits P (build W cfg env_name until entry_point skip_tests
                         ignore_git)); [|apply E; constructor].
  unfold build. apply emits_bind; [apply emits_query|]. intros dockerfile.
  destruct (negb dockerfile); [apply emits_raise|].
  apply emits_bind.
  { unfold _validate_repository. destruct (repository cfg) as [r|];
      [destruct (r =? _)%string|]; first [apply emits_raise|apply emits_ret]. }
  intros _. destruct (find_package_name_and_version W) as [[pkg_name version]|];
    [|apply emits_raise].
  destruct (negb (check_lock_files_exist W)); [apply emits_raise|].
  destruct (get_dependencies W) as [x|[df lp]] eqn:Egd; [apply emits_raise|].
  assert (Ef : dependencies_found W = (df, lp))
    by (unfold dependencies_found; now rewrite Egd).
  rewrite Ef in *. cbn [fst snd] in *.
  apply emits_bind.
  - apply emits_for_each. intros item m Hin.
    apply build_iteration_emits_possible. intros c Hc.
    now apply (Hit pkg_name version item).
  - intros m. apply emits_bind; [apply emits_call, Hinfo|].
    intros _. apply emits_ret.
Qed.

(** X14.  Whatever the collaborators do: with [skip_tests] no
    [docker run] is ever issued; with [until='build'] no tag and no push;
    and with either stop token the only change of directory is into the
    environment directory, never back. *)
Theorem never_issued (W : World) (cfg : Config) (env_name : string)
    (until : option string) (entry_point : string)
    (skip_tests ignore_git : bool) :
  let tr := fst (build W cfg env_name until entry_point skip_tests
                   ignore_git []) in
  (skip_tests = true -> Forall (fun c => is_docker_run c = false) tr)
  /\
  (until = Some "build" -> Forall (fun c => is_tag_or_push c = false) tr)
  /\
  (until = Some "build" \/ until = Some "push" ->
   Forall (fun c => forall path, c = Cd path -> path = env_name) tr).
Proof.
  cbv zeta. split; [|split].
  - intros ->. apply build_emits_possible; [|reflexivity].
    intros pkg_name version [task lock_file] c _ _ Hc.
    unfold possible_calls in Hc. cbn [iteration_trace] in Hc.
    destruct (eq_str until "build"), (eq_str until "push"),
      (truthy_str (repository cfg)); cbn [app] in Hc;
      repeat (destruct Hc as [<-|Hc]; try reflexivity); contradiction.
  - intros ->. apply build_emits_possible; [|reflexivity].
    intros pkg_name version [task lock_file] c _ _ Hc.
    unfold possible_calls in Hc. cbn [iteration_trace eq_str] in Hc.
    destruct skip_tests; cbn in Hc;
      repeat (destruct Hc as [<-|Hc]; try reflexivity); contradiction.
  - intros Huntil. apply build_emits_possible; [|discriminate].
    intros pkg_name version [task lock_file] c _ _ Hc path Ec.
    unfold possible_calls in Hc. cbn [iteration_trace] in Hc.
    destruct Huntil as [-> | ->]; cbn [eq_str] in Hc;
      destruct skip_tests, (truthy_str (repository cfg)); cbn in Hc;
      repeat (destruct Hc as [<-|Hc];
              try discriminate Ec; try (now injection Ec));
      contradiction.
Qed.

(** The tests are skipped and the push is refused: no [docker run] in the
    trace. *)
Lemma never_issued_witness :
  Forall (fun c => is_docker_run c = false)
    (fst (build (failing_world false
                   (fun c => negb (is_tag_or_push c))
                   [default_group; fit_group])
            (sample_config (Some "repo.example.com/project"))
            "some-env" None "pipeline.yaml" true false [])).
Proof.
  apply (proj1 (never_issued
                  (failing_world false (fun c => negb (is_tag_or_push c))
                     [default_group; fit_group])
                  (sample_config (Some "repo.example.com/project"))
                  "some-env" None "pipeline.yaml" true false)).
  reflexivity.
Defined.

(** X15.  What [build] removes and copies: the only paths it asks the
    Commander to remove are [dist], [build] and the egg-info directory of
    the package, and the only ones it asks it to copy are [dist] and the
    lock files of [lock_paths]. *)
Theorem removes_and_copies_only (W : World) (cfg : Config)
    (env_name : string) (until : option string) (entry_point : string)
    (skip_tests ignore_git : bool) :
  Forall
    (fun c =>
       (forall paths path, c = Rm paths -> In path paths ->
          path = "dist" \/ path = "build" \/
          exists pkg_name version,
            find_package_name_and_version W = Some (pkg_name, version) /\
            path = Path3 "src" pkg_name (fstr [pkg_name; ".egg-info"])) /\
       (forall path, c = Cp path ->
          path = "dist" \/
          exists task, In (task, path) (snd (dependencies_found W))))
    (fst (build W cfg env_name until entry_point skip_tests ignore_git [])).
Proof.
  apply build_emits; [|intros m; split; discriminate].
  intros pkg_name version [task lock_file] c Hfind Hin Hc.
  cbn [iteration_calls] in Hc.
  destruct (truthy_str (repository cfg)); cbn [app] in Hc;
    repeat (destruct Hc as [<-|Hc];
            [split; [intros paths path E Hp|intros path E];
             try discriminate E|]);
    try contradiction;
    try (injection E as <-; cbn in Hp; intuition eauto; fail);
    try (injection E as <-; eauto; fail).
Qed.

(** ** The two ways of packaging *)

Lemma emits_query_bind {P : Call -> Prop} {B} (q : Trace -> bool)
      (k : bool -> M B) :
  (forall b, (exists tr, q tr = b) -> emits P (k b)) ->
  emits P (bind (query q) k).
Proof.
  intros Hk tr H. rewrite bind_query. apply Hk; [now exists tr|exact H].
Qed.

Lemma package_code_emits_by_layout P W cfg ignore_git pkg_name
      dependency_files lock_paths lock_file :
  ((exists tr, path_exists W tr "setup.py" = true) ->
   forall c, In c (packaging_calls true cfg ignore_git pkg_name lock_paths
                     lock_file) -> P c) ->
  ((exists tr, path_exists W tr "setup.py" = false) ->
   forall c, In c (packaging_calls false cfg ignore_git pkg_name lock_paths
                     lock_file) -> P c) ->
  emits P (package_code W cfg ignore_git pkg_name dependency_files
             lock_paths lock_file).
Proof.
  intros Ht Hf. unfold package_code.
  apply emits_query_bind. intros [|] Hq.
  - specialize (Ht Hq). apply emits_bind.
    + apply emits_for_each. intros x [] _. unfold reject_task_pattern.
      destruct (negb (x =? "default")%string);
        [apply emits_raise|apply emits_ret].
    + intros _. repeat emits_step Ht.
  - specialize (Hf Hq). repeat emits_step Hf.
Qed.

Lemma build_emits_by_layout (P : Call -> Prop) W cfg env_name until
      entry_point skip_tests ignore_git :
  (forall pkg_name version item c,
      In item (snd (dependencies_found W)) ->
      In c (image_stage_calls cfg env_name entry_point pkg_name version
              item) -> P c) ->
  (forall pkg_name lock_file c,
      (exists tr, path_exists W tr "setup.py" = true) ->
      In c (packaging_calls true cfg ignore_git pkg_name
              (snd (dependencies_found W)) lock_file) -> P c) ->
  (forall pkg_name lock_file c,
      (exists tr, path_exists W tr "setup.py" = false) ->
      In c (packaging_calls false cfg ignore_git pkg_name
              (snd (dependencies_found W)) lock_file) -> P c) ->
  (forall m, P (InfoFormat "Images generated : {}" m)) ->
  Forall P (fst (build W cfg env_name until entry_point skip_tests
                   ignore_git [])).
Proof.
  intros Himg Ht Hf Hinfo.
  assert (E : emits P (build W cfg env_name until entry_point skip_tests
                         ignore_git)); [|apply E; constructor].
  unfold build. apply emits_bind; [apply emits_query|]. intros dockerfile.
  destruct (negb dockerfile); [apply emits_raise|].
  apply emits_bind.
  { unfold _validate_repository. destruct (repository cfg) as [r|];
      [destruct (r =? _)%string|]; first [apply emits_raise|apply emits_ret]. }
  intros _. destruct (find_package_name_and_version W) as [[pkg_name version]|];
    [|apply emits_raise].
  destruct (negb (check_lock_files_exist W)); [apply emits_raise|].
  destruct (get_dependencies W) as [x|[df lp]] eqn:Egd; [apply emits_raise|].
  assert (Ef : dependencies_found W = (df, lp))
    by (unfold dependencies_found; now rewrite Egd).
  rewrite Ef in *. cbn [fst snd] in *.
  apply emits_bind.
  - apply emits_for_each. intros [task lock_file] m Hin.
    pose proof (Himg pkg_name version (task, lock_file)) as H.
    specialize (fun c => H c Hin). cbn [image_stage_calls] in H.
    unfold build_iteration.
    apply emits_bind; [apply emits_query|]. intros lock_exists.
    apply emits_bind; [repeat emits_step H|]. intros _.
    apply emits_bind.
    { apply package_code_emits_by_layout; intros Hq c Hc;
        [now apply (Ht pkg_name lock_file)|now apply (Hf pkg_name lock_file)]. }
    intros _.
    destruct skip_tests, (eq_str until "build"), (eq_str until "push"),
      (truthy_str (repository cfg));
      cbn [negb when];
      repeat first [ apply emits_raise | emits_step H ].
  - intros m. apply emits_bind; [apply emits_call, Hinfo|].
    intros _. apply emits_ret.
Qed.

(** X16.  The two ways of packaging exclude each other over a whole run,
    whatever the collaborators do: where [setup.py] never exists, no
    source distribution is built and only [dist] is ever removed; where it
    always exists, [source.copy] and [source.compress_dir] are never
    called. *)
Theorem packaging_follows_layout (W : World) (cfg : Config)
    (env_name : string) (until : option string) (entry_point : string)
    (skip_tests ignore_git : bool) :
  let tr := fst (build W cfg env_name until entry_point skip_tests
                   ignore_git []) in
  ((forall tr0, path_exists W tr0 "setup.py" = false) ->
   Forall (fun c => c <> sdist_build /\
                    forall paths, c = Rm paths -> paths = ["dist"]) tr)
  /\
  ((forall tr0, path_exists W tr0 "setup.py" = true) ->
   Forall (fun c => is_source_call c = false) tr).
Proof.
  cbv zeta. split; intros Hs; apply build_emits_by_layout.
  - intros pkg_name version [task lock_file] c _ Hc.
    cbn [image_stage_calls] in Hc.
    repeat (destruct Hc as [<-|Hc];
            [split; [discriminate|intros paths E; try discriminate E;
                                  now injection E]|]).
    contradiction.
  - intros pkg_name lock_file c [tr0 H]. rewrite Hs in H. discriminate H.
  - intros pkg_name lock_file c _ Hc. cbn [packaging_calls] in Hc.
    repeat (destruct Hc as [<-|Hc];
            [split; [discriminate|intros paths E; try discriminate E;
                                  now injection E]|]).
    contradiction.
  - intros m. split; [discriminate|intros paths E; discriminate E].
  - intros pkg_name version [task lock_file] c _ Hc.
    cbn [image_stage_calls] in Hc.
    repeat (destruct Hc as [<-|Hc]; [reflexivity|]). contradiction.
  - intros pkg_name lock_file c _ Hc. cbn [packaging_calls] in Hc.
    repeat (destruct Hc as [<-|Hc]; [reflexivity|]). contradiction.
  - intros pkg_name lock_file c [tr0 H]. rewrite Hs in H. discriminate H.
  - reflexivity.
Qed.

(** A project without [setup.py] whose image builds are refused. *)
Lemma packaging_follows_layout_witness :
  Forall (fun c => c <> sdist_build /\
                   forall paths, c = Rm paths -> paths = ["dist"])
    (fst (build (failing_world false (fun c => negb (is_docker_build c))
                   [default_group; fit_group])
            (sample_config None) "some-env" None "pipeline.yaml"
            false false [])).
Proof.
  apply (proj1 (packaging_follows_layout
                  (failing_world false (fun c => negb (is_docker_build c))
                     [default_group; fit_group])
                  (sample_config None) "some-env" None "pipeline.yaml"
                  false false)).
  intros tr0. reflexivity.
Defined.
